(** * Ingestion of OpenHands trajectories: converter and metadata aggregator

    A shallow embedding of [scripts/docent_ingest.py]:
    - [convert_openhands_history_to_messages], the forward scan that turns an
      event history into chat messages, and
    - [build_agent_run] with [load_gso_report], which assemble the metadata
      and the scores of one trajectory.

    The Python values the script handles are the values [json.loads] returns.
    They are modelled by the type [json]; the Python operations the script
    applies to them ([dict.get], truthiness, [==], [in], [len], slicing, [+])
    are modelled on every such value, an operation that raises in Python
    returning [Raise].  A Python [str] is a [string] whose elements stand for
    its characters; a Python [dict] is an association list in insertion
    order. *)

From Stdlib Require Import String Ascii List Bool Arith ZArith Lia.
From Stdlib Require Import QArith_base.
From Stdlib Require Import DecimalString DecimalNat.
Import ListNotations.

Close Scope Q_scope.
Set Warnings "-register-all,-abstract-large-number".
Open Scope string_scope.
Open Scope list_scope.

(* ------------------------------------------------------------------ *)
(** ** Python values and exceptions *)

Module Py.

Inductive json : Type :=
| JNull
| JBool (b : bool)
| JInt (n : Z)
| JFloat (q : Q)
| JStr (s : string)
| JArr (items : list json)
| JObj (fields : list (string * json)).

Definition dict : Type := list (string * json).

Inductive exn : Type := AttributeError | TypeError | OSError.

Inductive result (A : Type) : Type :=
| Ok (a : A)
| Raise (e : exn).

Arguments Ok {A} a.
Arguments Raise {A} e.

Definition bind {A B : Type} (r : result A) (k : A -> result B) : result B :=
  match r with
  | Ok a => k a
  | Raise e => Raise e
  end.

(** [bool(v)] *)
Definition truthy (v : json) : bool :=
  match v with
  | JNull => false
  | JBool b => b
  | JInt n => negb (n =? 0)%Z
  | JFloat q => negb (Qeq_bool q (inject_Z 0))
  | JStr s => negb (s =? "")
  | JArr items => match items with [] => false | _ :: _ => true end
  | JObj fields => match fields with [] => false | _ :: _ => true end
  end.

(** [a or b] *)
Definition py_or (a b : json) : json := if truthy a then a else b.

(** [v == "lit"] for a string literal *)
Definition eq_str (v : json) (lit : string) : bool :=
  match v with
  | JStr s => (s =? lit)
  | _ => false
  end.

Fixpoint dict_get (k : string) (d : dict) : option json :=
  match d with
  | [] => None
  | (k', v) :: rest => if (k' =? k) then Some v else dict_get k rest
  end.

(** [k in d] for a dict [d] *)
Definition has_key (k : string) (d : dict) : bool :=
  match dict_get k d with Some _ => true | None => false end.

(** [d.get(k, default)] on a dict *)
Definition get (d : dict) (k : string) (default : json) : json :=
  match dict_get k d with
  | Some v => v
  | None => default
  end.

(** [v.get(k, default)] on any value: only a dict has the method. *)
Definition attr_get (v : json) (k : string) (default : json) : result json :=
  match v with
  | JObj d => Ok (get d k default)
  | _ => Raise AttributeError
  end.

(** [d[k] = v]: an existing key keeps its position. *)
Fixpoint dict_set (k : string) (v : json) (d : dict) : dict :=
  match d with
  | [] => [(k, v)]
  | (k', v') :: rest =>
      if (k' =? k) then (k', v) :: rest else (k', v') :: dict_set k v rest
  end.

(** [len(v)] *)
Definition py_len (v : json) : result nat :=
  match v with
  | JStr s => Ok (String.length s)
  | JArr items => Ok (List.length items)
  | JObj fields => Ok (List.length fields)
  | _ => Raise TypeError
  end.

(** [v[:n]]; a dict cannot be sliced (TypeError; KeyError from Python 3.12). *)
Definition py_slice_to (n : nat) (v : json) : result json :=
  match v with
  | JStr s => Ok (JStr (substring 0 n s))
  | JArr items => Ok (JArr (firstn n items))
  | _ => Raise TypeError
  end.

(** [v + "lit"] *)
Definition py_add_str (v : json) (lit : string) : result json :=
  match v with
  | JStr s => Ok (JStr (s ++ lit))
  | _ => Raise TypeError
  end.

(** The number a value compares as: [True == 1], [1 == 1.0]. *)
Definition num_val (v : json) : option Q :=
  match v with
  | JBool b => Some (inject_Z (if b then 1 else 0))
  | JInt n => Some (inject_Z n)
  | JFloat q => Some q
  | _ => None
  end.

(** [a == b] *)
Fixpoint py_eq (a b : json) : bool :=
  match a, b with
  | JNull, JNull => true
  | JStr s, JStr t => (s =? t)
  | JArr xs, JArr ys =>
      (fix all2 (xs ys : list json) : bool :=
         match xs, ys with
         | [], [] => true
         | x :: xs', y :: ys' => py_eq x y && all2 xs' ys'
         | _, _ => false
         end) xs ys
  | JObj d, JObj d' =>
      (List.length d =? List.length d')%nat &&
      (fix sub (d : list (string * json)) : bool :=
         match d with
         | [] => true
         | (k, v) :: rest =>
             match dict_get k d' with
             | Some v' => py_eq v v'
             | None => false
             end && sub rest
         end) d
  | _, _ =>
      match num_val a, num_val b with
      | Some p, Some q => Qeq_bool p q
      | _, _ => false
      end
  end.

(** [t in s] for two strings *)
Definition is_substring (t s : string) : bool :=
  match index 0 t s with Some _ => true | None => false end.

(** [x in c] *)
Definition py_in (x c : json) : result bool :=
  match c with
  | JArr items => Ok (existsb (py_eq x) items)
  | JStr s =>
      match x with
      | JStr t => Ok (is_substring t s)
      | _ => Raise TypeError
      end
  | JObj d =>
      match x with
      | JStr k => Ok (has_key k d)
      | JArr _ | JObj _ => Raise TypeError
      | _ => Ok false
      end
  | _ => Raise TypeError
  end.

(** [for x in v]: the elements iterated over. *)
Definition py_iter (v : json) : result (list json) :=
  match v with
  | JArr items => Ok items
  | JStr s => Ok (map (fun c => JStr (String c EmptyString)) (list_ascii_of_string s))
  | JObj d => Ok (map (fun kv => JStr (fst kv)) d)
  | _ => Raise TypeError
  end.

End Py.

Export Py.

Declare Scope py_scope.
Notation "'let*' x ':=' e1 'in' e2" := (bind e1 (fun x => e2))
  (at level 10, x name, e1 at level 100, e2 at level 200) : py_scope.
Open Scope py_scope.

(* ------------------------------------------------------------------ *)
(** ** Docent chat messages

    The constructors of [docent.data_models.chat]; the fields are the
    keyword arguments the script passes.  An [AssistantMessage] built
    without [tool_calls] carries the empty list.  The library is not part of
    the repository: a message is the record of the values it was built
    from, and the check the library makes of them is not modelled (see
    [well_typed] for the values its fields are declared for). *)

Record ToolCallContent : Type := mkToolCallContent {
  vc_format : string;
  vc_content : string
}.

Record ToolCall : Type := mkToolCall {
  tc_id : string;
  tc_function : json;
  tc_arguments : json;
  tc_view : ToolCallContent
}.

Inductive Message : Type :=
| UserMessage (content : json)
| AssistantMessage (content : json) (tool_calls : list ToolCall)
| ToolMessage (content : json) (tool_call_id : string) (function : json).

Record Transcript : Type := mkTranscript { tr_messages : list Message }.

Record AgentRun : Type := mkAgentRun {
  transcripts : list Transcript;
  metadata : dict
}.

(* ------------------------------------------------------------------ *)
(** ** The converter *)

Definition nl : string := String "010"%char EmptyString.

(** The decimal digits of a counter, as [f"{n}"] prints them. *)
Definition decimal (n : nat) : string := NilEmpty.string_of_uint (Nat.to_uint n).

(** [f"call_{call_counter}"] *)
Definition call_id_of (call_counter : nat) : string := "call_" ++ decimal call_counter.

(** The three local variables of the scan. *)
Record State : Type := mkState {
  messages : list Message;
  pending_tool_call : option (json * string);
  call_counter : nat
}.

Definition append (m : Message) (st : State) : State :=
  mkState (messages st ++ [m]) (pending_tool_call st) (call_counter st).

Definition set_pending (p : option (json * string)) (st : State) : State :=
  mkState (messages st) p (call_counter st).

Definition incr_counter (st : State) : State :=
  mkState (messages st) (pending_tool_call st) (S (call_counter st)).

Section Ingest.

(** [str(v)] of a value that is not a string: Python's rendering of numbers,
    [None], booleans, lists and dicts is left abstract. *)
Variable py_repr : json -> string.

(** [str(v)], and [{v}] inside an f-string *)
Definition py_str (v : json) : string :=
  match v with
  | JStr s => s
  | _ => py_repr v
  end.

(** The variables read from one event (lines 51-55). *)
Record Fields : Type := mkFields {
  source : json;
  action : json;
  observation : json;
  args : json;
  content : json
}.

Definition read_fields (event : dict) : Fields :=
  mkFields (get event "source" (JStr ""))
           (get event "action" JNull)
           (get event "observation" JNull)
           (get event "args" (JObj []))
           (py_or (get event "content" JNull) (get event "message" (JStr ""))).

(** The guards of the chain of [if] statements, in source order. *)
Definition is_system (f : Fields) : bool := eq_str (action f) "system".

Definition is_user_message (f : Fields) : bool :=
  eq_str (source f) "user" && eq_str (action f) "message".

Definition is_agent_action (f : Fields) : bool :=
  eq_str (source f) "agent" && truthy (action f) && negb (eq_str (action f) "message").

Definition is_agent_message (f : Fields) : bool :=
  eq_str (source f) "agent" && eq_str (action f) "message".

(** A tool invocation: a new identifier, one [AssistantMessage] carrying the
    call, and the call becomes the pending one. *)
Definition invoke (thought func arguments : json) (view : string) (st : State) : State :=
  let call_id := call_id_of (call_counter st) in
  let st := incr_counter st in
  let st := append (AssistantMessage thought
                      [mkToolCall call_id func arguments
                         (mkToolCallContent "markdown" view)]) st in
  set_pending (Some (func, call_id)) st.

(** The preview of a written file (line 121):
    [c[:500] + "..." if len(c) > 500 else c]. *)
Definition write_preview (c : json) : result json :=
  let* n := py_len c in
  if (500 <? n)%nat then
    let* head := py_slice_to 500 c in
    py_add_str head "..."
  else Ok c.

(** The body of the branch for agent actions (lines 70-173). *)
Definition agent_action (f : Fields) (st : State) : result State :=
  let* thought0 := attr_get (args f) "thought" (JStr "") in
  let thought := py_or thought0 (JStr "") in
  if eq_str (action f) "run" then
    let* command := attr_get (args f) "command" (JStr "") in
    Ok (invoke thought (JStr "bash") (JObj [("command", command)])
          ("```bash" ++ nl ++ py_str command ++ nl ++ "```") st)
  else if eq_str (action f) "read" then
    let* path := attr_get (args f) "path" (JStr "") in
    Ok (invoke thought (JStr "read_file") (JObj [("path", path)])
          ("Reading file: `" ++ py_str path ++ "`") st)
  else if eq_str (action f) "write" then
    let* path := attr_get (args f) "path" (JStr "") in
    let* c := attr_get (args f) "content" (JStr "") in
    let* file_content := write_preview c in
    Ok (invoke thought (JStr "write_file") (JObj [("path", path)])
          ("Writing to file: `" ++ py_str path ++ "`" ++ nl ++ "```" ++ nl
             ++ py_str file_content ++ nl ++ "```") st)
  else if eq_str (action f) "think" then
    Ok (set_pending None
          (append (AssistantMessage (JStr ("**Thinking:** " ++ py_str thought)) []) st))
  else if eq_str (action f) "finish" then
    let* t := attr_get (args f) "thought" (JStr "") in
    let final_thought := py_or t thought in
    Ok (set_pending None
          (append (AssistantMessage (JStr ("**Finished:** " ++ py_str final_thought)) []) st))
  else
    Ok (invoke thought (action f) (args f) ("Action: " ++ py_str (action f)) st).

(** The text of an observation (lines 189-191); [event] is the whole event. *)
Definition observation_content (event : dict) : json :=
  let obs_content := get event "content" (JStr "") in
  if negb (truthy obs_content) && has_key "extras" event
  then JStr (py_str (get event "extras" (JObj [])))
  else obs_content.

(** Truncation of very long outputs (lines 194-195). *)
Definition truncate_observation (obs_content : json) : result json :=
  let* n := py_len obs_content in
  if (5000 <? n)%nat then
    let* head := py_slice_to 5000 obs_content in
    py_add_str head (nl ++ "... (truncated)")
  else Ok obs_content.

(** One iteration of the loop (lines 50-205). *)
Definition process_event (st : State) (event : json) : result State :=
  match event with
  | JObj ev =>
      let f := read_fields ev in
      if is_system f then Ok st
      else if is_user_message f then
        let* c := attr_get (args f) "content" (JStr "") in
        let msg_content := py_or c (content f) in
        Ok (if truthy msg_content then append (UserMessage msg_content) st else st)
      else if is_agent_action f then agent_action f st
      else if is_agent_message f then
        let* c := attr_get (args f) "content" (JStr "") in
        let msg_content := py_or c (content f) in
        Ok (set_pending None
              (if truthy msg_content then append (AssistantMessage msg_content []) st
               else st))
      else
        match truthy (observation f), pending_tool_call st with
        | true, Some (func_name, call_id) =>
            let* obs_content := truncate_observation (observation_content ev) in
            Ok (set_pending None (append (ToolMessage obs_content call_id func_name) st))
        | _, _ => Ok st
        end
  | _ => Raise AttributeError
  end.

(** The loop over the history. *)
Fixpoint run (st : State) (history : list json) : result State :=
  match history with
  | [] => Ok st
  | event :: rest =>
      let* st' := process_event st event in
      run st' rest
  end.

(** The state at function entry (lines 46-48). *)
Definition initial_state : State := mkState [] None 1.

Definition convert_openhands_history_to_messages (history : list json)
  : result (list Message) :=
  let* st := run initial_state history in
  Ok (messages st).

(** The rule of the chain that handles an event: the first guard that holds.
    [Remaining] is what is left for the observation rule. *)
Inductive Rule : Type :=
| System
| UserText
| AgentAction
| AgentText
| Remaining.

Definition rule_of (f : Fields) : Rule :=
  if is_system f then System
  else if is_user_message f then UserText
  else if is_agent_action f then AgentAction
  else if is_agent_message f then AgentText
  else Remaining.



(* ------------------------------------------------------------------ *)
(** ** The metadata aggregator *)

(** What [load_gso_report] finds at [logs_dir / instance_id / "report.json"]:
    no file ([exists()] is false), a path whose check fails ([exists()]
    raises OSError: a name too long, a directory that may not be searched),
    a file that cannot be opened or parsed, or a parsed document. *)
Inductive report_file : Type :=
| Missing
| Inaccessible
| Unreadable
| Parsed (report : json).

(** A logs directory, by the report file of each instance identifier. *)
Definition LogsDir : Type := string -> report_file.

(** The path is built and checked before the [try]: an identifier that is
    not a string raises TypeError, a check that fails raises OSError.
    Inside the [try] every exception yields the empty dict. *)
Definition load_gso_report (logs_dir : LogsDir) (instance_id : json) : result json :=
  match instance_id with
  | JStr iid =>
      match logs_dir iid with
      | Missing => Ok (JObj [])
      | Inaccessible => Raise OSError
      | Unreadable => Ok (JObj [])
      | Parsed report =>
          match attr_get report iid (JObj []) with
          | Ok v => Ok v
          | Raise _ => Ok (JObj [])
          end
      end
  | _ => Raise TypeError
  end.

(** [v is None] *)
Definition is_none (v : json) : bool :=
  match v with JNull => true | _ => false end.

(** Lines 276-293: the scores before the run-level report is consulted. *)
Definition load_scores (logs_dir : option LogsDir) (instance_id : json) : result dict :=
  let scores := [("status", JStr "unknown")] in
  match logs_dir with
  | Some dir =>
      let* instance_report := load_gso_report dir instance_id in
      if truthy instance_report then
        let* test_passed := attr_get instance_report "test_passed" (JBool false) in
        let* opt_base := attr_get instance_report "opt_base" (JBool false) in
        let* opt_commit := attr_get instance_report "opt_commit" (JBool false) in
        let* opt_main := attr_get instance_report "opt_main" (JBool false) in
        let* patch_applied :=
          attr_get instance_report "patch_successfully_applied" (JBool false) in
        let scores := [("test_passed", test_passed);
                       ("opt_base", opt_base);
                       ("opt_commit", opt_commit);
                       ("opt_main", opt_main);
                       ("patch_applied", patch_applied)] in
        let* opt_stats := attr_get instance_report "opt_stats" (JObj []) in
        if truthy opt_stats then
          let* base := attr_get opt_stats "gm_speedup_patch_base" JNull in
          let scores := dict_set "gm_speedup_patch_base" base scores in
          let* commit := attr_get opt_stats "gm_speedup_patch_commit" JNull in
          Ok (dict_set "gm_speedup_patch_commit" commit scores)
        else Ok scores
      else Ok scores
  | None => Ok scores
  end.

(** [instance_id in instance_sets.get(name, [])] *)
Definition listed (instance_id instance_sets : json) (name : string) : result bool :=
  let* ids := attr_get instance_sets name (JArr []) in
  py_in instance_id ids.

(** Lines 296-307: the status taken from the run-level report. *)
Definition check_run_report (run_report : option json) (instance_id : json)
    (scores : dict) : result dict :=
  match run_report with
  | Some report =>
      if truthy report then
        let* instance_sets := attr_get report "instance_sets" (JObj []) in
        let* passed := listed instance_id instance_sets "passed_ids" in
        if passed then Ok (dict_set "status" (JStr "passed") scores) else
        let* opt_base := listed instance_id instance_sets "opt_base_ids" in
        if opt_base then Ok (dict_set "status" (JStr "opt_base") scores) else
        let* test_failed := listed instance_id instance_sets "test_failed_ids" in
        if test_failed then Ok (dict_set "status" (JStr "test_failed") scores) else
        let* patch_failed := listed instance_id instance_sets "patch_failed_ids" in
        if patch_failed then Ok (dict_set "status" (JStr "patch_failed") scores) else
        let* error := listed instance_id instance_sets "error_ids" in
        if error then Ok (dict_set "status" (JStr "error") scores) else
        Ok scores
      else Ok scores
  | None => Ok scores
  end.

(** Lines 247-273: the metadata copied from the trajectory record. *)
Definition trajectory_metadata (traj_data : dict) (instance_id : json) : result dict :=
  let metadata := [("instance_id", instance_id)] in
  let traj_metadata := get traj_data "metadata" (JObj []) in
  let* metadata :=
    if truthy traj_metadata then
      let* agent_class := attr_get traj_metadata "agent_class" JNull in
      let metadata := dict_set "agent_class" agent_class metadata in
      let* llm_config := attr_get traj_metadata "llm_config" (JObj []) in
      let* model := attr_get llm_config "model" JNull in
      Ok (dict_set "llm_model" model metadata)
    else Ok metadata in
  let metrics := get traj_data "metrics" (JObj []) in
  let metadata :=
    if truthy metrics then dict_set "metrics" metrics metadata else metadata in
  let instance_info := get traj_data "instance" (JObj []) in
  let* metadata :=
    if truthy instance_info then
      let* repo := attr_get instance_info "repo" JNull in
      let metadata := dict_set "repo" repo metadata in
      let* api := attr_get instance_info "api" JNull in
      Ok (dict_set "api" api metadata)
    else Ok metadata in
  let test_result := get traj_data "test_result" (JObj []) in
  if truthy test_result then
    let* git_patch := attr_get test_result "git_patch" JNull in
    Ok (dict_set "has_patch" (JBool (truthy git_patch)) metadata)
  else Ok metadata.

(** [{k: v for k, v in metadata.items() if v is not None}] *)
Definition drop_none (metadata : dict) : dict :=
  filter (fun kv => negb (is_none (snd kv))) metadata.

Definition build_agent_run (traj_data : dict) (logs_dir : option LogsDir)
    (model_name : option string) (run_report : option json)
  : result (option AgentRun) :=
  let instance_id := get traj_data "instance_id" JNull in
  if negb (truthy instance_id) then Ok None else
  let history := get traj_data "history" (JArr []) in
  if negb (truthy history) then Ok None else
  let* events := py_iter history in
  let* msgs := convert_openhands_history_to_messages events in
  match msgs with
  | [] => Ok None
  | _ :: _ =>
      let transcript := mkTranscript msgs in
      let* metadata := trajectory_metadata traj_data instance_id in
      let* scores := load_scores logs_dir instance_id in
      let* scores := check_run_report run_report instance_id scores in
      let metadata := dict_set "scores" (JObj scores) metadata in
      let metadata :=
        match model_name with
        | Some name =>
            if truthy (JStr name) then dict_set "model_name" (JStr name) metadata
            else metadata
        | None => metadata
        end in
      Ok (Some (mkAgentRun [transcript] (drop_none metadata)))
  end.


(** The status override as the specification words it: the sets are tried
    in a fixed precedence and the first one listing the identifier gives its
    label. *)
Definition status_precedence : list (string * string) :=
  [("passed_ids", "passed");
   ("opt_base_ids", "opt_base");
   ("test_failed_ids", "test_failed");
   ("patch_failed_ids", "patch_failed");
   ("error_ids", "error")].

Fixpoint first_listed (instance_id instance_sets : json)
    (table : list (string * string)) : result (option string) :=
  match table with
  | [] => Ok None
  | (name, label) :: rest =>
      let* hit := listed instance_id instance_sets name in
      if hit then Ok (Some label) else first_listed instance_id instance_sets rest
  end.

Definition status_choice (report instance_id : json) : result (option string) :=
  if truthy report then
    let* instance_sets := attr_get report "instance_sets" (JObj []) in
    first_listed instance_id instance_sets status_precedence
  else Ok None.

Definition with_status (choice : option string) (scores : dict) : dict :=
  match choice with
  | Some label => dict_set "status" (JStr label) scores
  | None => scores
  end.

Definition status_labels : list string :=
  ["unknown"; "passed"; "opt_base"; "test_failed"; "patch_failed"; "error"].

(* ------------------------------------------------------------------ *)
(** ** Sample inputs *)

Definition user_event (text : string) : dict :=
  [("source", JStr "user"); ("action", JStr "message");
   ("args", JObj [("content", JStr text)])].

Definition run_event (thought command : string) : dict :=
  [("source", JStr "agent"); ("action", JStr "run");
   ("args", JObj [("thought", JStr thought); ("command", JStr command)])].

Definition observation_event (tag text : string) : dict :=
  [("observation", JStr tag); ("content", JStr text)].


Definition write_event (path text : string) : dict :=
  [("source", JStr "agent"); ("action", JStr "write");
   ("args", JObj [("path", JStr path); ("content", JStr text)])].

Definition fix_bug_history : list json :=
  [JObj (user_event "fix bug");
   JObj (run_event "run tests" "pytest");
   JObj (observation_event "run" "2 passed")].

Definition bash_call (call_id command : string) : ToolCall :=
  mkToolCall call_id (JStr "bash") (JObj [("command", JStr command)])
    (mkToolCallContent "markdown" ("```bash" ++ nl ++ command ++ nl ++ "```")).

Definition fix_bug_messages : list Message :=
  [UserMessage (JStr "fix bug");
   AssistantMessage (JStr "run tests") [bash_call "call_1" "pytest"];
   ToolMessage (JStr "2 passed") "call_1" (JStr "bash")].

Definition sample_trajectory (instance_id : string) : dict :=
  [("instance_id", JStr instance_id); ("history", JArr fix_bug_history)].

(** A logs directory holding one report file, that of [instance_id]. *)
Definition logs_with (instance_id : string) (report : json) : LogsDir :=
  fun iid => if (iid =? instance_id) then Parsed report else Missing.

Definition passed_instance_report : json :=
  JObj [("iid", JObj [("test_passed", JBool true); ("opt_base", JBool true)])].

Definition passed_run_report : json :=
  JObj [("instance_sets", JObj [("passed_ids", JArr [JStr "iid"])])].

(** Instance reports with an optimisation block: an empty one, and one that
    gives the speedup over the base only. *)
Definition empty_stats_report : json :=
  JObj [("iid", JObj [("test_passed", JBool true); ("opt_stats", JObj [])])].

Definition base_only_stats : dict :=
  [("gm_speedup_patch_base", JFloat (Qmake 3 2))].

Definition base_only_report : dict :=
  [("test_passed", JBool true); ("opt_stats", JObj base_only_stats)].

Fixpoint replicate (n : nat) (c : ascii) : string :=
  match n with
  | 0 => EmptyString
  | S n' => String c (replicate n' c)
  end.

(** The sample inputs hold text only where a value is rendered, so that any
    rendering of the other values serves to run them. *)
Definition no_repr : json -> string := fun _ => "".

(* ------------------------------------------------------------------ *)
(** ** Observers of a message sequence *)

(** The identifiers of the tool calls a message carries. *)
Definition call_ids (m : Message) : list string :=
  match m with
  | AssistantMessage _ calls => map tc_id calls
  | _ => []
  end.

(** The identifier a tool result refers to. *)
Definition result_ids (m : Message) : list string :=
  match m with
  | ToolMessage _ call_id _ => [call_id]
  | _ => []
  end.

Definition bears_invocation (m : Message) : bool :=
  match m with
  | AssistantMessage _ (_ :: _) => true
  | _ => false
  end.

Definition is_tool_message (m : Message) : bool :=
  match m with
  | ToolMessage _ _ _ => true
  | _ => false
  end.

Definition count_invocations (msgs : list Message) : nat :=
  List.length (filter bears_invocation msgs).

Definition count_tool_messages (msgs : list Message) : nat :=
  List.length (filter is_tool_message msgs).

(** The identifiers issued, and the identifiers consumed, in emission order. *)
Definition invocation_ids (msgs : list Message) : list string :=
  flat_map call_ids msgs.

Definition consumed_ids (msgs : list Message) : list string :=
  flat_map result_ids msgs.

(** What the scan maintains between two events. *)
Record Linked (st : State) : Prop := mkLinked {
  linked_counter :
    call_counter st = S (List.length (invocation_ids (messages st)));
  linked_issued :
    invocation_ids (messages st)
    = map call_id_of (seq 1 (List.length (invocation_ids (messages st))));
  linked_count :
    count_invocations (messages st) = List.length (invocation_ids (messages st));
  linked_earlier :
    forall i c call_id f,
      nth_error (messages st) i = Some (ToolMessage c call_id f) ->
      In call_id (invocation_ids (firstn i (messages st)));
  linked_once : NoDup (consumed_ids (messages st));
  linked_pending :
    forall f call_id,
      pending_tool_call st = Some (f, call_id) ->
      In call_id (invocation_ids (messages st))
      /\ ~ In call_id (consumed_ids (messages st))
}.


(* ------------------------------------------------------------------ *)
(** ** Call identifiers *)

Lemma string_of_uint_inj (d d' : Decimal.uint) :
  NilEmpty.string_of_uint d = NilEmpty.string_of_uint d' -> d = d'.
Proof.
  intros E.
  assert (H : Some d = Some d').
  { rewrite <- (NilEmpty.usu d), <- (NilEmpty.usu d'). now rewrite E. }
  now inversion H.
Qed.

Lemma call_id_of_inj (n n' : nat) : call_id_of n = call_id_of n' -> n = n'.
Proof.
  unfold call_id_of, decimal. intros E.
  apply Unsigned.to_uint_inj, string_of_uint_inj.
  simpl in E. now inversion E.
Qed.

Lemma call_id_of_fresh (n : nat) :
  ~ In (call_id_of (S n)) (map call_id_of (seq 1 n)).
Proof.
  intros H. apply in_map_iff in H. destruct H as [k [E K]].
  apply call_id_of_inj in E. apply in_seq in K. lia.
Qed.

Lemma call_ids_NoDup (n : nat) : NoDup (map call_id_of (seq 1 n)).
Proof.
  induction n as [|n IH].
  - constructor.
  - rewrite seq_S, map_app. simpl.
    apply NoDup_app.
    + exact IH.
    + constructor; [intros [] | constructor].
    + intros x Hx [E | []]. subst x. exact (call_id_of_fresh n Hx).
Qed.

(* ------------------------------------------------------------------ *)
(** ** Lists built by appending at the end *)

Lemma nth_error_snoc {A : Type} (l : list A) (x y : A) (i : nat) :
  nth_error (l ++ [x]) i = Some y ->
  (i < List.length l /\ nth_error l i = Some y) \/ (i = List.length l /\ y = x).
Proof.
  intros H. destruct (Nat.lt_ge_cases i (List.length l)) as [Hlt | Hge].
  - left. split; [exact Hlt |]. now rewrite nth_error_app1 in H.
  - right. rewrite nth_error_app2 in H by exact Hge.
    destruct (i - List.length l) as [|k] eqn:E; simpl in H.
    + split; [lia | congruence].
    + destruct k; discriminate.
Qed.

Lemma firstn_snoc {A : Type} (l : list A) (x : A) (i : nat) :
  i <= List.length l -> firstn i (l ++ [x]) = firstn i l.
Proof.
  intros H. rewrite firstn_app.
  replace (i - List.length l) with 0 by lia. simpl. apply app_nil_r.
Qed.

Lemma NoDup_app_inv {A : Type} (l1 l2 : list A) :
  NoDup (l1 ++ l2) -> NoDup l2 /\ (forall a, In a l1 -> ~ In a l2).
Proof.
  induction l1 as [|h t IH]; simpl; intros ND.
  - split; [exact ND | intros a []].
  - inversion ND as [|? ? Hnot NDt]; subst.
    destruct (IH NDt) as [ND2 Hdisj]. split; [exact ND2 |].
    intros a [E | Hin].
    + subst a. intros H2. apply Hnot. apply in_or_app. now right.
    + now apply Hdisj.
Qed.

(** In a sequence whose flattened labels are all distinct, a label names one
    position. *)
Lemma flat_map_NoDup_position {A B : Type} (f : A -> list B) (l : list A) :
  NoDup (flat_map f l) ->
  forall i j a b x,
    nth_error l i = Some a -> nth_error l j = Some b ->
    In x (f a) -> In x (f b) -> i = j.
Proof.
  induction l as [|h t IH]; intros ND i j a b x Hi Hj Ha Hb.
  - destruct i; discriminate.
  - simpl in ND. apply NoDup_app_inv in ND. destruct ND as [NDt Hdisj].
    destruct i as [|i], j as [|j]; simpl in Hi, Hj.
    + reflexivity.
    + exfalso. inversion Hi; subst h. apply (Hdisj x Ha).
      apply in_flat_map. exists b. split; [eapply nth_error_In; eauto | exact Hb].
    + exfalso. inversion Hj; subst h. apply (Hdisj x Hb).
      apply in_flat_map. exists a. split; [eapply nth_error_In; eauto | exact Ha].
    + f_equal. eapply IH; eauto.
Qed.

(** A label of a prefix sits at a position inside the prefix. *)
Lemma flat_map_firstn_position {A B : Type} (f : A -> list B) (l : list A) (i : nat) (x : B) :
  In x (flat_map f (firstn i l)) ->
  exists j a, j < i /\ nth_error l j = Some a /\ In x (f a).
Proof.
  intros H. apply in_flat_map in H. destruct H as [a [Ha Hx]].
  apply In_nth_error in Ha. destruct Ha as [j Hj].
  assert (Hlt : j < i).
  { assert (j < List.length (firstn i l)) by (apply nth_error_Some; congruence).
    rewrite length_firstn in H. lia. }
  exists j, a. repeat split; auto.
  rewrite nth_error_firstn in Hj.
  destruct (Nat.ltb_spec j i); [exact Hj | lia].
Qed.

Lemma flat_map_firstn_incl {A B : Type} (f : A -> list B) (l : list A) (i : nat) :
  incl (flat_map f (firstn i l)) (flat_map f l).
Proof.
  intros x H. rewrite <- (firstn_skipn i l) at 1. rewrite flat_map_app.
  apply in_or_app. now left.
Qed.


(* ------------------------------------------------------------------ *)
(** ** The scan keeps calls and results linked *)

Lemma invocation_ids_snoc (msgs : list Message) (m : Message) :
  invocation_ids (msgs ++ [m]) = invocation_ids msgs ++ call_ids m.
Proof.
  unfold invocation_ids. rewrite flat_map_app. simpl. now rewrite app_nil_r.
Qed.

Lemma consumed_ids_snoc (msgs : list Message) (m : Message) :
  consumed_ids (msgs ++ [m]) = consumed_ids msgs ++ result_ids m.
Proof.
  unfold consumed_ids. rewrite flat_map_app. simpl. now rewrite app_nil_r.
Qed.

Lemma count_invocations_snoc (msgs : list Message) (m : Message) :
  count_invocations (msgs ++ [m])
  = count_invocations msgs + (if bears_invocation m then 1 else 0).
Proof.
  unfold count_invocations. rewrite filter_app, length_app. simpl.
  now destruct (bears_invocation m).
Qed.

Lemma consumed_ids_length (msgs : list Message) :
  List.length (consumed_ids msgs) = count_tool_messages msgs.
Proof.
  unfold consumed_ids, count_tool_messages.
  induction msgs as [|m t IH]; simpl; [reflexivity |].
  destruct m; simpl; now rewrite IH.
Qed.

Lemma consumed_ids_position (msgs : list Message) (x : string) :
  In x (consumed_ids msgs) ->
  exists i c f, nth_error msgs i = Some (ToolMessage c x f).
Proof.
  intros H. apply in_flat_map in H. destruct H as [m [Hm Hx]].
  destruct m as [c | c calls | c call_id f]; simpl in Hx; try contradiction.
  destruct Hx as [E | []]. subst call_id.
  apply In_nth_error in Hm. destruct Hm as [i Hi]. now exists i, c, f.
Qed.

Lemma Linked_consumed_issued (st : State) :
  Linked st -> incl (consumed_ids (messages st)) (invocation_ids (messages st)).
Proof.
  intros L x Hx. apply consumed_ids_position in Hx. destruct Hx as [i [c [f Hi]]].
  eapply flat_map_firstn_incl. eapply linked_earlier; eauto.
Qed.

Lemma Linked_initial : Linked initial_state.
Proof.
  constructor; simpl; auto.
  - intros i c call_id f H. destruct i; discriminate.
  - constructor.
  - intros f call_id H. discriminate.
Qed.

Lemma Linked_set_pending_None (st : State) :
  Linked st -> Linked (set_pending None st).
Proof.
  intros [Hc Hi Hn He Ho Hp]. constructor; simpl; auto.
  intros f call_id H. discriminate.
Qed.

(** Appending a message that carries neither a call nor a result. *)
Lemma Linked_append_plain (st : State) (m : Message) :
  call_ids m = [] -> result_ids m = [] -> Linked st -> Linked (append m st).
Proof.
  intros Hcall Hres [Hc Hi Hn He Ho Hp].
  assert (Hb : bears_invocation m = false).
  { destruct m as [c | c calls | c call_id f]; simpl in *; auto.
    destruct calls; [reflexivity | discriminate]. }
  constructor; simpl;
    rewrite ?invocation_ids_snoc, ?consumed_ids_snoc, ?count_invocations_snoc,
            ?Hcall, ?Hres, ?Hb, ?app_nil_r, ?Nat.add_0_r; auto.
  intros i c call_id f H. apply nth_error_snoc in H.
  destruct H as [[Hlt H] | [_ E]].
  - rewrite firstn_snoc by lia. eauto.
  - subst m. discriminate.
Qed.

(** A tool invocation. *)
Lemma Linked_invoke (thought func arguments : json) (view : string) (st : State) :
  Linked st -> Linked (invoke thought func arguments view st).
Proof.
  intros L. pose proof (Linked_consumed_issued st L) as Hincl.
  destruct L as [Hc Hi Hn He Ho Hp].
  set (n := List.length (invocation_ids (messages st))) in *.
  unfold invoke.
  constructor; simpl;
    rewrite ?invocation_ids_snoc, ?consumed_ids_snoc, ?count_invocations_snoc;
    simpl; rewrite ?app_nil_r, ?length_app; simpl; fold n.
  - lia.
  - rewrite Nat.add_1_r, seq_S, map_app. simpl. rewrite Hc. now rewrite <- Hi.
  - lia.
  - intros i c call_id f H. apply nth_error_snoc in H.
    destruct H as [[Hlt H] | [_ E]]; [| discriminate].
    rewrite firstn_snoc by lia. eauto.
  - exact Ho.
  - intros f call_id H. inversion H; subst f call_id. split.
    + apply in_or_app. right. now left.
    + intros Hin. apply Hincl in Hin. rewrite Hi, Hc in Hin.
      exact (call_id_of_fresh n Hin).
Qed.

(** A tool result attached to the pending call. *)
Lemma Linked_attach (st : State) (c f : json) (call_id : string) :
  pending_tool_call st = Some (f, call_id) ->
  Linked st ->
  Linked (set_pending None (append (ToolMessage c call_id f) st)).
Proof.
  intros Hpend [Hc Hi Hn He Ho Hp].
  destruct (Hp f call_id Hpend) as [Hissued Hfresh].
  constructor; simpl;
    rewrite ?invocation_ids_snoc, ?consumed_ids_snoc, ?count_invocations_snoc;
    simpl; rewrite ?app_nil_r, ?Nat.add_0_r; auto.
  - intros i c' call_id' f' H. apply nth_error_snoc in H.
    destruct H as [[Hlt H] | [E1 E2]].
    + rewrite firstn_snoc by lia. eauto.
    + inversion E2; subst. rewrite firstn_snoc by lia. now rewrite firstn_all.
  - apply NoDup_app; auto.
    + constructor; [intros [] | constructor].
    + intros x Hx [E | []]. subst x. contradiction.
  - intros f' call_id' H. discriminate.
Qed.


(** Decompose a successful sequence of fallible steps. *)
Ltac bind_ok H :=
  repeat match type of H with
         | bind ?e _ = Ok _ =>
             let v := fresh "v" in
             let E := fresh "E" in
             destruct e as [v | ?] eqn:E; simpl in H; [| discriminate H]
         end.

Ltac ok_inv H := inversion H; subst; clear H.

Lemma agent_action_Linked (f : Fields) (st st' : State) :
  Linked st -> agent_action f st = Ok st' -> Linked st'.
Proof.
  intros L H. unfold agent_action in H. bind_ok H.
  destruct (eq_str (action f) "run").
  { bind_ok H. ok_inv H. now apply Linked_invoke. }
  destruct (eq_str (action f) "read").
  { bind_ok H. ok_inv H. now apply Linked_invoke. }
  destruct (eq_str (action f) "write").
  { bind_ok H. ok_inv H. now apply Linked_invoke. }
  destruct (eq_str (action f) "think").
  { ok_inv H. apply Linked_set_pending_None. now apply Linked_append_plain. }
  destruct (eq_str (action f) "finish").
  { bind_ok H. ok_inv H. apply Linked_set_pending_None. now apply Linked_append_plain. }
  ok_inv H. now apply Linked_invoke.
Qed.

Lemma process_event_Linked (st st' : State) (event : json) :
  Linked st -> process_event st event = Ok st' -> Linked st'.
Proof.
  intros L H. unfold process_event in H.
  destruct event as [| | | | | | ev]; try discriminate H.
  destruct (is_system (read_fields ev)).
  { now ok_inv H. }
  destruct (is_user_message (read_fields ev)).
  { bind_ok H. ok_inv H.
    destruct (truthy _); [now apply Linked_append_plain | exact L]. }
  destruct (is_agent_action (read_fields ev)).
  { eapply agent_action_Linked; eauto. }
  destruct (is_agent_message (read_fields ev)).
  { bind_ok H. ok_inv H. apply Linked_set_pending_None.
    destruct (truthy _); [now apply Linked_append_plain | exact L]. }
  destruct (truthy (observation (read_fields ev))); [| now ok_inv H].
  destruct (pending_tool_call st) as [[func_name call_id] |] eqn:P; [| now ok_inv H].
  bind_ok H. ok_inv H. now apply Linked_attach.
Qed.

Lemma run_Linked (history : list json) :
  forall st st', Linked st -> run st history = Ok st' -> Linked st'.
Proof.
  induction history as [|event rest IH]; intros st st' L H; simpl in H.
  - now ok_inv H.
  - bind_ok H. eapply IH; [| exact H]. eapply process_event_Linked; eauto.
Qed.

(** ** C1 *)

(** C1: in every converted sequence there are at most as many tool results
    as messages carrying an invocation; every tool result names the
    identifier of exactly one invocation-bearing message, which stands
    strictly earlier; no identifier is named by two tool results; and the
    identifiers issued are call_1, call_2, ... in order, all distinct. *)
Theorem convert_links_results_to_calls (history : list json) (msgs : list Message) :
  convert_openhands_history_to_messages history = Ok msgs ->
  count_tool_messages msgs <= count_invocations msgs
  /\ (forall i c call_id f,
        nth_error msgs i = Some (ToolMessage c call_id f) ->
        exists j m,
          j < i /\ nth_error msgs j = Some m /\ bears_invocation m = true
          /\ In call_id (call_ids m)
          /\ (forall j' m', nth_error msgs j' = Some m' ->
                            In call_id (call_ids m') -> j' = j))
  /\ (forall i i' c c' call_id f f',
        nth_error msgs i = Some (ToolMessage c call_id f) ->
        nth_error msgs i' = Some (ToolMessage c' call_id f') -> i = i')
  /\ invocation_ids msgs = map call_id_of (seq 1 (count_invocations msgs))
  /\ NoDup (invocation_ids msgs).
Proof.
  unfold convert_openhands_history_to_messages. intros H. bind_ok H. ok_inv H.
  pose proof (run_Linked history initial_state v Linked_initial E) as L.
  pose proof (Linked_consumed_issued v L) as Hincl.
  destruct L as [Hc Hi Hn He Ho Hp].
  assert (ND : NoDup (invocation_ids (messages v))).
  { rewrite Hi. apply call_ids_NoDup. }
  repeat split.
  - rewrite <- consumed_ids_length, Hn. now apply NoDup_incl_length.
  - intros i c call_id f Hnth.
    destruct (flat_map_firstn_position call_ids (messages v) i call_id
                (He i c call_id f Hnth)) as [j [m [Hlt [Hj Hin]]]].
    exists j, m. repeat split; auto.
    + destruct m as [? | ? calls | ? ? ?]; simpl in Hin; try contradiction.
      destruct calls; [contradiction | reflexivity].
    + intros j' m' Hj' Hin'.
      eapply (flat_map_NoDup_position call_ids (messages v) ND); eauto.
  - intros i i' c c' call_id f f' H1 H2.
    eapply (flat_map_NoDup_position result_ids (messages v) Ho); eauto;
      simpl; now left.
  - now rewrite Hn.
  - exact ND.
Qed.


(* ------------------------------------------------------------------ *)
(** ** The rules of the scan *)

Lemma eq_str_true (v : json) (lit : string) : eq_str v lit = true -> v = JStr lit.
Proof.
  destruct v; simpl; try discriminate. intros H.
  apply String.eqb_eq in H. now subst.
Qed.

(** One iteration, by the rule that handles the event. *)
Lemma process_event_rule (st : State) (ev : dict) :
  process_event st (JObj ev) =
  let f := read_fields ev in
  match rule_of f with
  | System => Ok st
  | UserText =>
      let* c := attr_get (args f) "content" (JStr "") in
      let msg_content := py_or c (content f) in
      Ok (if truthy msg_content then append (UserMessage msg_content) st else st)
  | AgentAction => agent_action f st
  | AgentText =>
      let* c := attr_get (args f) "content" (JStr "") in
      let msg_content := py_or c (content f) in
      Ok (set_pending None
            (if truthy msg_content then append (AssistantMessage msg_content []) st
             else st))
  | Remaining =>
      match truthy (observation f), pending_tool_call st with
      | true, Some (func_name, call_id) =>
          let* obs_content := truncate_observation (observation_content ev) in
          Ok (set_pending None (append (ToolMessage obs_content call_id func_name) st))
      | _, _ => Ok st
      end
  end.
Proof.
  unfold process_event, rule_of. simpl.
  destruct (is_system (read_fields ev)); [reflexivity |].
  destruct (is_user_message (read_fields ev)); [reflexivity |].
  destruct (is_agent_action (read_fields ev)); [reflexivity |].
  destruct (is_agent_message (read_fields ev)); reflexivity.
Qed.


Lemma rule_of_AgentAction (f : Fields) :
  rule_of f = AgentAction ->
  eq_str (action f) "system" = false /\ is_agent_action f = true.
Proof.
  unfold rule_of, is_system.
  destruct (eq_str (action f) "system"); [discriminate |].
  destruct (is_user_message f); [discriminate |].
  destruct (is_agent_action f); [now split |].
  destruct (is_agent_message f); discriminate.
Qed.

Lemma run_app (l1 l2 : list json) :
  forall st, run st (l1 ++ l2) = let* st' := run st l1 in run st' l2.
Proof.
  induction l1 as [|e l1 IH]; intros st; simpl; [reflexivity |].
  destruct (process_event st e); simpl; [apply IH | reflexivity].
Qed.

(* ------------------------------------------------------------------ *)
(** ** Strings *)

Lemma str_length_app (s t : string) :
  String.length (s ++ t) = String.length s + String.length t.
Proof. induction s as [|c s IH]; simpl; [reflexivity | now rewrite IH]. Qed.

Lemma str_length_prefix (n : nat) :
  forall s, n <= String.length s -> String.length (substring 0 n s) = n.
Proof.
  induction n as [|n IH]; intros s H.
  - now destruct s.
  - destruct s as [|c s]; simpl in *; [lia |]. rewrite IH; [reflexivity | lia].
Qed.


(* ------------------------------------------------------------------ *)
(** ** Claims about the converter *)



(** C6: the history of a user request, a run action and its observation
    converts to the user message, the assistant message carrying the bash
    call call_1, and the tool message answering call_1. *)
Theorem convert_fix_bug_history :
  convert_openhands_history_to_messages fix_bug_history
  = Ok [UserMessage (JStr "fix bug");
        AssistantMessage (JStr "run tests") [bash_call "call_1" "pytest"];
        ToolMessage (JStr "2 passed") "call_1" (JStr "bash")].
Proof. reflexivity. Qed.


(** C7: a written file longer than 500 characters is previewed by its first
    500 characters followed by "...", 503 characters in all; an observation
    text longer than 5000 characters is stored as its first 5000 characters
    followed by the truncation marker. *)
Theorem truncation_laws :
  (forall st ev a c,
      let f := read_fields ev in
      let thought := py_or (get a "thought" (JStr "")) (JStr "") in
      let path := get a "path" (JStr "") in
      let preview := (substring 0 500 c ++ "...")%string in
      rule_of f = AgentAction ->
      eq_str (action f) "write" = true ->
      args f = JObj a ->
      get a "content" (JStr "") = JStr c ->
      500 < String.length c ->
      String.length preview = 503
      /\ write_preview (JStr c) = Ok (JStr preview)
      /\ process_event st (JObj ev)
         = Ok (invoke thought (JStr "write_file") (JObj [("path", path)])
                 ("Writing to file: `" ++ py_str path ++ "`" ++ nl ++ "```" ++ nl
                    ++ preview ++ nl ++ "```") st))
  /\ (forall st ev func call_id t,
        let f := read_fields ev in
        let head := substring 0 5000 t in
        rule_of f = Remaining ->
        truthy (observation f) = true ->
        pending_tool_call st = Some (func, call_id) ->
        observation_content ev = JStr t ->
        5000 < String.length t ->
        String.length head = 5000
        /\ process_event st (JObj ev)
           = Ok (set_pending None
                   (append (ToolMessage (JStr (head ++ nl ++ "... (truncated)"))
                              call_id func) st))).
Proof.
  split.
  - intros st ev a c f thought path preview R Hw Hargs Hc Hlen.
    assert (Hprev : write_preview (JStr c) = Ok (JStr preview)).
    { unfold write_preview. cbn [py_len bind].
      destruct (Nat.ltb_spec 500 (String.length c)); [reflexivity | lia]. }
    repeat split.
    + unfold preview. rewrite str_length_app, str_length_prefix; [reflexivity | lia].
    + exact Hprev.
    + rewrite process_event_rule. cbv zeta. fold f. rewrite R.
      apply eq_str_true in Hw. unfold agent_action. rewrite Hw, Hargs.
      cbn [bind attr_get]. fold thought path. rewrite Hc, Hprev. reflexivity.
  - intros st ev func call_id t f head R Hobs Hpend Ht Hlen. split.
    + unfold head. apply str_length_prefix. lia.
    + rewrite process_event_rule. cbv zeta. fold f. rewrite R, Hobs, Hpend, Ht.
      unfold truncate_observation. cbn [py_len bind].
      destruct (Nat.ltb_spec 5000 (String.length t)); [reflexivity | lia].
Qed.

(** C8: an event left to the observation rule while no call is pending
    appends nothing and changes neither the pending call nor the counter;
    the events after it convert as if it had not been there. *)
Theorem unmatched_observation_is_dropped
    (before after : list json) (ev : dict) (st : State) :
  rule_of (read_fields ev) = Remaining ->
  run initial_state before = Ok st ->
  pending_tool_call st = None ->
  process_event st (JObj ev) = Ok st
  /\ run initial_state (before ++ [JObj ev]) = Ok st
  /\ run initial_state (before ++ JObj ev :: after)
     = run initial_state (before ++ after)
  /\ convert_openhands_history_to_messages (before ++ JObj ev :: after)
     = convert_openhands_history_to_messages (before ++ after).
Proof.
  intros R Hrun Hpend.
  assert (Hstep : process_event st (JObj ev) = Ok st).
  { rewrite process_event_rule. cbv zeta. rewrite R, Hpend.
    now destruct (truthy (observation (read_fields ev))). }
  assert (Hskip : run initial_state (before ++ JObj ev :: after)
                  = run initial_state (before ++ after)).
  { rewrite !run_app, Hrun. cbn [bind run]. now rewrite Hstep. }
  repeat split; auto.
  - rewrite run_app, Hrun. cbn [bind run]. now rewrite Hstep.
  - unfold convert_openhands_history_to_messages. now rewrite Hskip.
Qed.


(* ------------------------------------------------------------------ *)
(** ** Dicts *)

Lemma dict_get_set_same (k : string) (v : json) (d : dict) :
  dict_get k (dict_set k v d) = Some v.
Proof.
  induction d as [|[k' v'] d IH]; simpl.
  - now rewrite String.eqb_refl.
  - destruct (k' =? k) eqn:E; simpl; rewrite E; [reflexivity | exact IH].
Qed.

Lemma dict_get_set_other (k k' : string) (v : json) (d : dict) :
  (k' =? k) = false -> dict_get k (dict_set k' v d) = dict_get k d.
Proof.
  intros Hne. induction d as [|[k0 v0] d IH]; simpl.
  - now rewrite Hne.
  - destruct (k0 =? k') eqn:E; simpl.
    + apply String.eqb_eq in E. subst k0. now rewrite Hne.
    + destruct (k0 =? k); [reflexivity | exact IH].
Qed.

Lemma dict_get_drop_none (k : string) (v : json) (d : dict) :
  dict_get k d = Some v -> is_none v = false -> dict_get k (drop_none d) = Some v.
Proof.
  intros H Hv. induction d as [|[k' v'] d IH]; simpl in *; [discriminate |].
  destruct (k' =? k) eqn:E.
  - inversion H; subst v'. rewrite Hv. simpl. now rewrite E.
  - destruct (is_none v'); simpl; [auto | rewrite E; auto].
Qed.

Lemma drop_none_no_null (k : string) (d : dict) :
  dict_get k (drop_none d) <> Some JNull.
Proof.
  induction d as [|[k' v'] d IH]; simpl; [discriminate |].
  destruct (is_none v') eqn:N; simpl; [exact IH |].
  destruct (k' =? k); [| exact IH].
  intros H. inversion H; subst v'. discriminate.
Qed.

(* ------------------------------------------------------------------ *)
(** ** The status override *)

Lemma first_listed_Some (instance_id instance_sets : json) (label : string) :
  forall table,
    first_listed instance_id instance_sets table = Ok (Some label) ->
    exists before name after,
      table = before ++ (name, label) :: after
      /\ listed instance_id instance_sets name = Ok true
      /\ Forall (fun nl => listed instance_id instance_sets (fst nl) = Ok false) before.
Proof.
  induction table as [|[name' label'] rest IH]; simpl; intros H; [discriminate |].
  destruct (listed instance_id instance_sets name') as [[|] | e] eqn:E;
    cbn [bind] in H; [| | discriminate].
  - inversion H; subst label'. exists [], name', rest. repeat split; auto.
  - destruct (IH H) as [before [name [after [Ht [Hhit Hbefore]]]]].
    exists ((name', label') :: before), name, after. subst rest.
    repeat split; auto.
Qed.

Lemma first_listed_None (instance_id instance_sets : json) :
  forall table,
    first_listed instance_id instance_sets table = Ok None ->
    Forall (fun nl => listed instance_id instance_sets (fst nl) = Ok false) table.
Proof.
  induction table as [|[name' label'] rest IH]; simpl; intros H; [constructor |].
  destruct (listed instance_id instance_sets name') as [[|] | e] eqn:E;
    cbn [bind] in H; try discriminate.
  constructor; auto.
Qed.

(** The chain of [elif] is the choice by precedence. *)
Lemma check_run_report_choice (report instance_id : json) (scores : dict) :
  check_run_report (Some report) instance_id scores
  = let* choice := status_choice report instance_id in
    Ok (with_status choice scores).
Proof.
  unfold check_run_report, status_choice.
  destruct (truthy report); [| reflexivity].
  destruct (attr_get report "instance_sets" (JObj [])) as [sets | e];
    cbn [bind]; [| reflexivity].
  unfold status_precedence. cbn [first_listed].
  repeat match goal with
         | |- context [listed instance_id sets ?name] =>
             destruct (listed instance_id sets name) as [[|] | ?];
             cbn [bind]; try reflexivity
         end.
Qed.

Lemma check_run_report_keeps (run_report : option json) (instance_id : json)
    (scores scores' : dict) (k : string) :
  check_run_report run_report instance_id scores = Ok scores' ->
  ("status" =? k) = false ->
  dict_get k scores' = dict_get k scores.
Proof.
  intros H Hk. destruct run_report as [report |]; [| now inversion H].
  rewrite check_run_report_choice in H. bind_ok H. ok_inv H.
  destruct v; simpl; [now apply dict_get_set_other | reflexivity].
Qed.

(** What a successful [build_agent_run] stores under "scores". *)
Lemma build_agent_run_scores (traj_data : dict) (logs_dir : option LogsDir)
    (model_name : option string) (run_report : option json) (r : AgentRun) :
  build_agent_run traj_data logs_dir model_name run_report = Ok (Some r) ->
  let instance_id := get traj_data "instance_id" JNull in
  exists scores0 scores,
    load_scores logs_dir instance_id = Ok scores0
    /\ check_run_report run_report instance_id scores0 = Ok scores
    /\ dict_get "scores" (metadata r) = Some (JObj scores)
    /\ forall k, dict_get k (metadata r) <> Some JNull.
Proof.
  intros H instance_id. unfold build_agent_run in H. fold instance_id in H.
  destruct (negb (truthy instance_id)); [discriminate |].
  destruct (negb (truthy (get traj_data "history" (JArr [])))); [discriminate |].
  destruct (py_iter (get traj_data "history" (JArr []))) as [events | ?];
    cbn [bind] in H; [| discriminate].
  destruct (convert_openhands_history_to_messages events) as [[|m msgs] | ?];
    cbn [bind] in H; try discriminate.
  destruct (trajectory_metadata traj_data instance_id) as [md | ?];
    cbn [bind] in H; [| discriminate].
  destruct (load_scores logs_dir instance_id) as [scores0 | ?] eqn:E0;
    cbn [bind] in H; [| discriminate].
  destruct (check_run_report run_report instance_id scores0) as [scores | ?] eqn:E1;
    cbn [bind] in H; [| discriminate].
  ok_inv H. exists scores0, scores. cbn [metadata].
  repeat split; auto.
  - apply dict_get_drop_none; [| reflexivity].
    destruct model_name as [name |];
      [cbn [truthy]; destruct (negb (name =? "")) |];
      rewrite ?dict_get_set_other by reflexivity; apply dict_get_set_same.
  - intros k. apply drop_none_no_null.
Qed.


Lemma load_scores_with_stats (dir : LogsDir) (instance_id : json) (report stats : dict) :
  load_gso_report dir instance_id = Ok (JObj report) ->
  get report "opt_stats" (JObj []) = JObj stats ->
  stats <> [] ->
  load_scores (Some dir) instance_id
  = Ok (dict_set "gm_speedup_patch_commit" (get stats "gm_speedup_patch_commit" JNull)
          (dict_set "gm_speedup_patch_base" (get stats "gm_speedup_patch_base" JNull)
             [("test_passed", get report "test_passed" (JBool false));
              ("opt_base", get report "opt_base" (JBool false));
              ("opt_commit", get report "opt_commit" (JBool false));
              ("opt_main", get report "opt_main" (JBool false));
              ("patch_applied", get report "patch_successfully_applied" (JBool false))])).
Proof.
  intros Hload Hstats Hne. unfold load_scores. rewrite Hload. cbn [bind].
  destruct report as [|kv report].
  { inversion Hstats. congruence. }
  cbn [truthy attr_get bind]. rewrite Hstats.
  destruct stats as [|kv' stats]; [congruence |]. reflexivity.
Qed.

(* ------------------------------------------------------------------ *)
(** ** Claims about the aggregator *)

(** C4: with a run-level report supplied, the status is the label of the
    first of passed_ids, opt_base_ids, test_failed_ids, patch_failed_ids,
    error_ids that lists the instance identifier, and the scores are left
    as the instance report gave them when none does; for the instance
    report of "iid" with test_passed and opt_base set and the run report
    listing "iid" as passed, the scores are the five flags and the status
    "passed". *)
Theorem status_follows_precedence :
  (forall traj_data logs_dir model_name report r,
      build_agent_run traj_data logs_dir model_name (Some report) = Ok (Some r) ->
      let instance_id := get traj_data "instance_id" JNull in
      exists scores0 choice,
        load_scores logs_dir instance_id = Ok scores0
        /\ status_choice report instance_id = Ok choice
        /\ dict_get "scores" (metadata r) = Some (JObj (with_status choice scores0))
        /\ (forall label,
              choice = Some label ->
              exists instance_sets before name after,
                attr_get report "instance_sets" (JObj []) = Ok instance_sets
                /\ status_precedence = before ++ (name, label) :: after
                /\ listed instance_id instance_sets name = Ok true
                /\ Forall (fun nl => listed instance_id instance_sets (fst nl) = Ok false)
                     before)
        /\ (choice = None -> truthy report = true ->
            exists instance_sets,
              attr_get report "instance_sets" (JObj []) = Ok instance_sets
              /\ Forall (fun nl => listed instance_id instance_sets (fst nl) = Ok false)
                   status_precedence))
  /\ (forall traj_data logs_dir model_name r,
        get traj_data "instance_id" JNull = JStr "iid" ->
        logs_dir "iid" = Parsed passed_instance_report ->
        build_agent_run traj_data (Some logs_dir) model_name (Some passed_run_report)
        = Ok (Some r) ->
        dict_get "scores" (metadata r)
        = Some (JObj [("test_passed", JBool true);
                      ("opt_base", JBool true);
                      ("opt_commit", JBool false);
                      ("opt_main", JBool false);
                      ("patch_applied", JBool false);
                      ("status", JStr "passed")])).
Proof.
  split.
  - intros traj_data logs_dir model_name report r H instance_id.
    destruct (build_agent_run_scores _ _ _ _ _ H)
      as [scores0 [scores [H0 [H1 [H2 _]]]]]. fold instance_id in H0, H1.
    rewrite check_run_report_choice in H1.
    destruct (status_choice report instance_id) as [choice | ?] eqn:C;
      cbn [bind] in H1; [| discriminate]. ok_inv H1.
    exists scores0, choice. repeat split; auto.
    + intros label ->. unfold status_choice in C.
      destruct (truthy report); [| discriminate].
      destruct (attr_get report "instance_sets" (JObj [])) as [sets | ?];
        cbn [bind] in C; [| discriminate].
      destruct (first_listed_Some _ _ _ _ C) as [before [name [after [A [B D]]]]].
      exists sets, before, name, after. repeat split; auto.
    + intros -> T. unfold status_choice in C. rewrite T in C.
      destruct (attr_get report "instance_sets" (JObj [])) as [sets | ?];
        cbn [bind] in C; [| discriminate].
      exists sets. split; [reflexivity |]. now apply first_listed_None.
  - intros traj_data logs_dir model_name r Hid Hlogs H.
    destruct (build_agent_run_scores _ _ _ _ _ H)
      as [scores0 [scores [H0 [H1 [H2 _]]]]].
    rewrite Hid in H0, H1. unfold load_scores, load_gso_report in H0.
    rewrite Hlogs in H0. cbn in H0. ok_inv H0.
    cbn in H1. ok_inv H1. exact H2.
Qed.

(** C5: evaluated where an instance report is found and no run-level
    report is given; the scores then hold the five flags and no status. *)
Theorem status_absent_without_run_report :
  exists r,
    build_agent_run (sample_trajectory "iid")
      (Some (logs_with "iid" passed_instance_report)) None None = Ok (Some r)
    /\ dict_get "scores" (metadata r)
       = Some (JObj [("test_passed", JBool true);
                     ("opt_base", JBool true);
                     ("opt_commit", JBool false);
                     ("opt_main", JBool false);
                     ("patch_applied", JBool false)])
    /\ forall scores,
         dict_get "scores" (metadata r) = Some (JObj scores) ->
         dict_get "status" scores = None.
Proof.
  eexists. split; [reflexivity |]. split; [reflexivity |].
  intros scores H. cbn in H. now ok_inv H.
Qed.

(** C10 (as amended): only the top-level keys are freed of null values.
    When the instance report has a non-empty opt_stats block lacking one of
    the two speedup keys, the scores hold that key with a null value, and
    no top-level key of the metadata holds null. *)
Theorem null_speedups_are_kept
    (traj_data : dict) (dir : LogsDir) (model_name : option string)
    (run_report : option json) (r : AgentRun) (report stats : dict) :
  build_agent_run traj_data (Some dir) model_name run_report = Ok (Some r) ->
  load_gso_report dir (get traj_data "instance_id" JNull) = Ok (JObj report) ->
  get report "opt_stats" (JObj []) = JObj stats ->
  stats <> [] ->
  exists scores,
    dict_get "scores" (metadata r) = Some (JObj scores)
    /\ (dict_get "gm_speedup_patch_base" stats = None ->
        dict_get "gm_speedup_patch_base" scores = Some JNull)
    /\ (dict_get "gm_speedup_patch_commit" stats = None ->
        dict_get "gm_speedup_patch_commit" scores = Some JNull)
    /\ (forall k, dict_get k (metadata r) <> Some JNull).
Proof.
  intros H Hload Hstats Hne.
  destruct (build_agent_run_scores _ _ _ _ _ H)
    as [scores0 [scores [H0 [H1 [H2 H3]]]]]. cbv zeta in H0, H1.
  rewrite (load_scores_with_stats _ _ _ _ Hload Hstats Hne) in H0. ok_inv H0.
  exists scores. repeat split; auto.
  - intros Hmiss. rewrite (check_run_report_keeps _ _ _ _ _ H1) by reflexivity.
    replace (get stats "gm_speedup_patch_base" JNull) with JNull
      by (unfold get; now rewrite Hmiss).
    reflexivity.
  - intros Hmiss. rewrite (check_run_report_keeps _ _ _ _ _ H1) by reflexivity.
    replace (get stats "gm_speedup_patch_commit" JNull) with JNull
      by (unfold get; now rewrite Hmiss).
    reflexivity.
Qed.

(* ------------------------------------------------------------------ *)
(** ** Further properties of the converter *)

(** Events the first rule skips. *)
Definition not_system (event : json) : bool :=
  match event with
  | JObj ev => negb (is_system (read_fields ev))
  | _ => true
  end.

Ltac nothing_added :=
  exists []; split; [cbn; now rewrite app_nil_r | simpl; lia].

Lemma agent_action_extends (f : Fields) (st st' : State) :
  agent_action f st = Ok st' ->
  exists m, messages st' = messages st ++ [m].
Proof.
  intros H. unfold agent_action in H. bind_ok H.
  destruct (eq_str (action f) "run").
  { bind_ok H. ok_inv H. eexists. reflexivity. }
  destruct (eq_str (action f) "read").
  { bind_ok H. ok_inv H. eexists. reflexivity. }
  destruct (eq_str (action f) "write").
  { bind_ok H. ok_inv H. eexists. reflexivity. }
  destruct (eq_str (action f) "think").
  { ok_inv H. eexists. reflexivity. }
  destruct (eq_str (action f) "finish").
  { bind_ok H. ok_inv H. eexists. reflexivity. }
  ok_inv H. eexists. reflexivity.
Qed.

Lemma process_event_extends (st st' : State) (event : json) :
  process_event st event = Ok st' ->
  exists added, messages st' = messages st ++ added /\ List.length added <= 1.
Proof.
  intros H. destruct event as [| | | | | | ev]; try discriminate H.
  rewrite process_event_rule in H. cbv zeta in H.
  destruct (rule_of (read_fields ev)).
  - ok_inv H. nothing_added.
  - bind_ok H. ok_inv H. destruct (truthy _).
    + eexists [_]. split; [reflexivity | simpl; lia].
    + nothing_added.
  - destruct (agent_action_extends _ _ _ H) as [m Hm].
    exists [m]. split; [exact Hm | simpl; lia].
  - bind_ok H. ok_inv H. destruct (truthy _).
    + eexists [_]. split; [reflexivity | simpl; lia].
    + nothing_added.
  - destruct (truthy (observation (read_fields ev))).
    2: { ok_inv H. nothing_added. }
    destruct (pending_tool_call st) as [[func_name call_id] |].
    2: { ok_inv H. nothing_added. }
    bind_ok H. ok_inv H. eexists [_]. split; [reflexivity | simpl; lia].
Qed.

Lemma run_extends (history : list json) :
  forall st st',
    run st history = Ok st' ->
    exists added,
      messages st' = messages st ++ added /\ List.length added <= List.length history.
Proof.
  induction history as [|event rest IH]; intros st st' H; simpl in H.
  - ok_inv H. nothing_added.
  - bind_ok H.
    destruct (process_event_extends _ _ _ E) as [a1 [H1 L1]].
    destruct (IH _ _ H) as [a2 [H2 L2]].
    exists (a1 ++ a2). rewrite H2, H1, app_assoc. split; [reflexivity |].
    rewrite length_app. simpl. lia.
Qed.

(** X1: the scan only appends.  The conversion of a history that continues
    a shorter one begins with the conversion of the shorter one, which
    succeeds, and each event adds at most one message. *)
Theorem convert_only_appends (h1 h2 : list json) (msgs : list Message) :
  convert_openhands_history_to_messages (h1 ++ h2) = Ok msgs ->
  exists msgs1 added,
    convert_openhands_history_to_messages h1 = Ok msgs1
    /\ msgs = msgs1 ++ added
    /\ List.length msgs1 <= List.length h1
    /\ List.length added <= List.length h2.
Proof.
  unfold convert_openhands_history_to_messages. rewrite run_app. intros H.
  destruct (run initial_state h1) as [st1 | ?] eqn:E1; cbn [bind] in H;
    [| discriminate].
  destruct (run st1 h2) as [st2 | ?] eqn:E2; cbn [bind] in H; [| discriminate].
  ok_inv H.
  destruct (run_extends _ _ _ E1) as [a1 [H1 L1]].
  destruct (run_extends _ _ _ E2) as [a2 [H2 L2]].
  exists (messages st1), a2. cbn [bind]. repeat split; auto.
  rewrite H1. simpl. exact L1.
Qed.

Lemma run_skips_system (history : list json) :
  forall st, run st (filter not_system history) = run st history.
Proof.
  induction history as [|event rest IH]; intros st; simpl; [reflexivity |].
  destruct (not_system event) eqn:N; simpl.
  - destruct (process_event st event); simpl; [apply IH | reflexivity].
  - destruct event as [| | | | | | ev]; try discriminate N.
    simpl in N. apply negb_false_iff in N.
    unfold process_event. rewrite N. simpl. apply IH.
Qed.

(** X2: system events are transparent: a history and the same history
    without its system events convert alike, errors included. *)
Theorem system_events_are_transparent (history : list json) :
  convert_openhands_history_to_messages (filter not_system history)
  = convert_openhands_history_to_messages history.
Proof.
  unfold convert_openhands_history_to_messages. now rewrite run_skips_system.
Qed.


(** Values that are text, dicts, and text where a value is given at all. *)
Definition is_text (v : json) : bool :=
  match v with
  | JStr _ => true
  | _ => false
  end.

Definition is_dict (v : json) : bool :=
  match v with
  | JObj _ => true
  | _ => false
  end.

Definition text_or_empty (v : json) : bool := is_text v || negb (truthy v).

(** Modelled from the spec: the message constructors are those of the docent
    library, which is not under src/.  The specification's data model makes
    the content of a message text, an invocation a named request with a
    structured argument, and a result the text of one invocation.  A
    message is well typed when it holds such values: text as content, and
    for each call a text function name, a dict of arguments and a markdown
    view. *)
Definition well_typed_call (c : ToolCall) : bool :=
  is_text (tc_function c) && is_dict (tc_arguments c)
  && (vc_format (tc_view c) =? "markdown").

Definition well_typed (m : Message) : bool :=
  match m with
  | UserMessage c => is_text c
  | AssistantMessage c calls => is_text c && forallb well_typed_call calls
  | ToolMessage c _ func => is_text c && is_text func
  end.

(** Events on which the scan neither raises nor hands a constructor a
    value outside its type.  Such an event is a dict.  When it is a user or
    agent message, its [args] is a dict and its text is text or empty; when
    it is an agent action, its [args] is a dict, its action and its thought
    are text, and the content it writes is text; when it is left to the
    observation rule with an observation tag, its text is text, given or
    rendered from [extras]. *)
Definition well_formed_event (event : json) : bool :=
  match event with
  | JObj ev =>
      let f := read_fields ev in
      match rule_of f with
      | System => true
      | UserText | AgentText =>
          match args f with
          | JObj a => text_or_empty (py_or (get a "content" (JStr "")) (content f))
          | _ => false
          end
      | AgentAction =>
          match args f with
          | JObj a =>
              is_text (py_or (get a "thought" (JStr "")) (JStr ""))
              && is_text (action f)
              && (negb (eq_str (action f) "write")
                  || is_text (get a "content" (JStr "")))
          | _ => false
          end
      | Remaining =>
          negb (truthy (observation f))
          || is_text (get ev "content" (JStr ""))
          || (negb (truthy (get ev "content" (JStr ""))) && has_key "extras" ev)
      end
  | _ => false
  end.

(** Values [len] rejects. *)
Definition unsized (v : json) : bool :=
  match v with
  | JNull | JBool _ | JInt _ | JFloat _ => true
  | _ => false
  end.

Lemma write_preview_text (s : string) : exists p, write_preview (JStr s) = Ok p.
Proof.
  unfold write_preview. cbn [py_len bind].
  destruct (500 <? String.length s)%nat; eexists; reflexivity.
Qed.

Lemma truncate_observation_text (s : string) :
  exists v, truncate_observation (JStr s) = Ok v.
Proof.
  unfold truncate_observation. cbn [py_len bind].
  destruct (5000 <? String.length s)%nat; eexists; reflexivity.
Qed.

Lemma truncate_observation_keeps_text (s : string) :
  exists s', truncate_observation (JStr s) = Ok (JStr s').
Proof.
  unfold truncate_observation. cbn [py_len bind].
  destruct (5000 <? String.length s)%nat; eexists; reflexivity.
Qed.

Lemma text_or_empty_truthy (v : json) :
  text_or_empty v = true -> truthy v = true -> exists s, v = JStr s.
Proof.
  unfold text_or_empty. intros H T. rewrite T in H. rewrite orb_false_r in H.
  destruct v; try discriminate H. eexists. reflexivity.
Qed.

Lemma is_text_inv (v : json) : is_text v = true -> exists s, v = JStr s.
Proof. destruct v; try discriminate. eexists. reflexivity. Qed.

(** What the scan keeps on well-formed events: the messages built so far
    are well typed, and so is the function name of the pending call. *)
Definition Typed (st : State) : Prop :=
  forallb well_typed (messages st) = true
  /\ forall func call_id, pending_tool_call st = Some (func, call_id) -> is_text func = true.

Lemma Typed_append (st : State) (m : Message) (p : option (json * string)) :
  Typed st -> well_typed m = true ->
  (forall func call_id, p = Some (func, call_id) -> is_text func = true) ->
  Typed (set_pending p (append m st)).
Proof.
  intros [Hm Hp] Hw Hn. split; simpl.
  - rewrite forallb_app, Hm. simpl. now rewrite Hw.
  - exact Hn.
Qed.

Lemma Typed_invoke (thought func arguments : json) (view : string) (st : State) :
  Typed st -> is_text thought = true -> is_text func = true ->
  is_dict arguments = true ->
  Typed (invoke thought func arguments view st).
Proof.
  intros [Hm Hp] Ht Hf Ha. unfold invoke. split; simpl.
  - rewrite forallb_app, Hm. simpl. unfold well_typed_call. simpl.
    now rewrite Ht, Hf, Ha.
  - intros f call_id H. now inversion H; subst.
Qed.

Lemma process_event_well_formed (st : State) (event : json) :
  well_formed_event event = true ->
  Typed st ->
  exists st', process_event st event = Ok st' /\ Typed st'.
Proof.
  destruct event as [| | | | | | ev]; try discriminate.
  unfold well_formed_event. cbv zeta. intros H T.
  rewrite process_event_rule. cbv zeta.
  destruct (rule_of (read_fields ev)).
  - eexists. split; [reflexivity | exact T].
  - destruct (args (read_fields ev)) as [| | | | | | a]; try discriminate H.
    cbn [attr_get bind].
    destruct (truthy (py_or (get a "content" (JStr "")) (content (read_fields ev))))
      eqn:Tr.
    + destruct (text_or_empty_truthy _ H Tr) as [s Hs]. rewrite Hs.
      eexists. split; [reflexivity |].
      destruct T as [Hm Hp]. split; simpl; [| exact Hp].
      rewrite forallb_app, Hm. reflexivity.
    + eexists. split; [reflexivity | exact T].
  - destruct (args (read_fields ev)) as [| | | | | | a] eqn:Hargs;
      try discriminate H.
    apply andb_true_iff in H. destruct H as [H Hw].
    apply andb_true_iff in H. destruct H as [Ht Ha].
    destruct (is_text_inv _ Ht) as [t Ht'].
    unfold agent_action. rewrite Hargs. cbn [attr_get bind]. rewrite Ht'.
    destruct (eq_str (action (read_fields ev)) "run").
    { eexists. split; [reflexivity |]. now apply Typed_invoke. }
    destruct (eq_str (action (read_fields ev)) "read").
    { eexists. split; [reflexivity |]. now apply Typed_invoke. }
    destruct (eq_str (action (read_fields ev)) "write").
    { simpl in Hw. destruct (is_text_inv _ Hw) as [c Hc]. rewrite Hc.
      destruct (write_preview_text c) as [p Hp]. rewrite Hp. cbn [bind].
      eexists. split; [reflexivity |]. now apply Typed_invoke. }
    destruct (eq_str (action (read_fields ev)) "think").
    { eexists. split; [reflexivity |].
      apply Typed_append; [exact T | reflexivity | discriminate]. }
    destruct (eq_str (action (read_fields ev)) "finish").
    { eexists. split; [reflexivity |].
      apply Typed_append; [exact T | reflexivity | discriminate]. }
    eexists. split; [reflexivity |]. now apply Typed_invoke.
  - destruct (args (read_fields ev)) as [| | | | | | a]; try discriminate H.
    cbn [attr_get bind].
    destruct (truthy (py_or (get a "content" (JStr "")) (content (read_fields ev))))
      eqn:Tr.
    + destruct (text_or_empty_truthy _ H Tr) as [s Hs]. rewrite Hs.
      eexists. split; [reflexivity |].
      apply Typed_append; [exact T | reflexivity | discriminate].
    + eexists. split; [reflexivity |].
      destruct T as [Hm Hp]. split; simpl; [exact Hm | discriminate].
  - destruct (truthy (observation (read_fields ev))) eqn:Ob;
      [| eexists; split; [reflexivity | exact T]].
    destruct (pending_tool_call st) as [[func_name call_id] |] eqn:P;
      [| eexists; split; [reflexivity | exact T]].
    cbn [negb orb] in H.
    assert (Ht : exists s, observation_content ev = JStr s).
    { unfold observation_content.
      destruct (negb (truthy (get ev "content" (JStr ""))) && has_key "extras" ev).
      - eexists. reflexivity.
      - rewrite orb_false_r in H. now apply is_text_inv. }
    destruct Ht as [s Hs]. rewrite Hs.
    destruct (truncate_observation_keeps_text s) as [s' Hs']. rewrite Hs'.
    cbn [bind]. eexists. split; [reflexivity |].
    apply Typed_append; [exact T | | discriminate].
    simpl. destruct T as [_ Hp]. now apply (Hp func_name call_id).
Qed.

(** X3: on a history of well-formed events the scan raises no exception,
    and every message it builds is well typed: its content is text, and
    each call it carries has a text function name, a dict of arguments and
    a markdown view. *)
Theorem well_formed_history_converts (history : list json) :
  forallb well_formed_event history = true ->
  exists msgs,
    convert_openhands_history_to_messages history = Ok msgs
    /\ forallb well_typed msgs = true.
Proof.
  unfold convert_openhands_history_to_messages.
  assert (G : forall st, forallb well_formed_event history = true -> Typed st ->
                         exists st', run st history = Ok st' /\ Typed st').
  { induction history as [|event rest IH]; intros st H T; simpl in *.
    - eexists. split; [reflexivity | exact T].
    - apply andb_true_iff in H. destruct H as [He Hr].
      destruct (process_event_well_formed st event He T) as [st1 [H1 T1]].
      rewrite H1. cbn [bind]. now apply IH. }
  intros H. destruct (G initial_state H) as [st' [Hst [Hm _]]].
  { split; [reflexivity | discriminate]. }
  rewrite Hst. eexists. split; [reflexivity | exact Hm].
Qed.

Lemma convert_raises_at (before after : list json) (event : json) (st : State) (e : exn) :
  run initial_state before = Ok st ->
  process_event st event = Raise e ->
  convert_openhands_history_to_messages (before ++ event :: after) = Raise e.
Proof.
  intros Hrun Hstep. unfold convert_openhands_history_to_messages.
  rewrite run_app, Hrun. cbn [bind run]. now rewrite Hstep.
Qed.

(** X4: an event that is not a dict, or a user or agent event whose [args]
    is not a dict, makes the whole conversion raise AttributeError, whatever
    was converted before it and whatever follows. *)
Theorem malformed_args_raise
    (before after : list json) (event : json) (st : State) :
  run initial_state before = Ok st ->
  match event with
  | JObj ev =>
      rule_of (read_fields ev) <> System
      /\ rule_of (read_fields ev) <> Remaining
      /\ forall a, args (read_fields ev) <> JObj a
  | _ => True
  end ->
  convert_openhands_history_to_messages (before ++ event :: after)
  = Raise AttributeError.
Proof.
  intros Hrun H. apply (convert_raises_at _ _ _ st); [exact Hrun |].
  destruct event as [| | | | | | ev]; try reflexivity.
  destruct H as [Hs [Hr Ha]]. rewrite process_event_rule. cbv zeta.
  assert (Hget : forall k d, attr_get (args (read_fields ev)) k d = Raise AttributeError).
  { intros k d. destruct (args (read_fields ev)); try reflexivity.
    now destruct (Ha fields). }
  destruct (rule_of (read_fields ev)); try congruence.
  - now rewrite Hget.
  - unfold agent_action. now rewrite Hget.
  - now rewrite Hget.
Qed.

(** X5: an observation whose text is null, a boolean or a number, arriving
    while a call is pending, makes the whole conversion raise TypeError. *)
Theorem unsized_observation_raises
    (before after : list json) (ev : dict) (st : State) (func : json) (call_id : string) :
  run initial_state before = Ok st ->
  pending_tool_call st = Some (func, call_id) ->
  rule_of (read_fields ev) = Remaining ->
  truthy (observation (read_fields ev)) = true ->
  unsized (observation_content ev) = true ->
  convert_openhands_history_to_messages (before ++ JObj ev :: after)
  = Raise TypeError.
Proof.
  intros Hrun Hpend R Hobs Hun. apply (convert_raises_at _ _ _ st); [exact Hrun |].
  rewrite process_event_rule. cbv zeta. rewrite R, Hobs, Hpend.
  unfold truncate_observation.
  destruct (observation_content ev); try discriminate Hun; reflexivity.
Qed.


(** *** Which message a tool result answers *)

(** The message at position [j] is the invocation of [func] under [call_id]:
    an assistant message with this one call, rendered as markdown. *)
Definition issued_at (msgs : list Message) (j : nat) (func : json) (call_id : string) : Prop :=
  exists thought arguments view,
    nth_error msgs j
    = Some (AssistantMessage thought
              [mkToolCall call_id func arguments (mkToolCallContent "markdown" view)]).

(** Only user messages stand strictly between positions [j] and [i]. *)
Definition users_between (msgs : list Message) (j i : nat) : Prop :=
  forall k, j < k < i -> exists c, nth_error msgs k = Some (UserMessage c).

Record Answered (st : State) : Prop := mkAnswered {
  answered_results :
    forall i c call_id f,
      nth_error (messages st) i = Some (ToolMessage c call_id f) ->
      exists j, j < i /\ issued_at (messages st) j f call_id
                /\ users_between (messages st) j i;
  answered_pending :
    forall f call_id,
      pending_tool_call st = Some (f, call_id) ->
      exists j, j < List.length (messages st)
                /\ issued_at (messages st) j f call_id
                /\ users_between (messages st) j (List.length (messages st))
}.

Lemma nth_error_snoc_old {A : Type} (l : list A) (x : A) (i : nat) :
  i < List.length l -> nth_error (l ++ [x]) i = nth_error l i.
Proof. intros H. now apply nth_error_app1. Qed.

Lemma nth_error_snoc_last {A : Type} (l : list A) (x : A) :
  nth_error (l ++ [x]) (List.length l) = Some x.
Proof. rewrite nth_error_app2 by lia. now rewrite Nat.sub_diag. Qed.

Lemma issued_at_snoc (msgs : list Message) (m : Message) (j : nat) (f : json) (id : string) :
  j < List.length msgs -> issued_at msgs j f id -> issued_at (msgs ++ [m]) j f id.
Proof.
  intros Hj [t [a [v H]]]. exists t, a, v. now rewrite nth_error_snoc_old.
Qed.

Lemma users_between_snoc (msgs : list Message) (m : Message) (j i : nat) :
  i <= List.length msgs -> users_between msgs j i -> users_between (msgs ++ [m]) j i.
Proof.
  intros Hi H k Hk. destruct (H k Hk) as [c Hc]. exists c.
  rewrite nth_error_snoc_old by lia. exact Hc.
Qed.

(** The results already answered stay so when a message is appended. *)
Lemma answered_results_snoc (msgs : list Message) (m : Message) :
  (forall i c call_id f,
      nth_error msgs i = Some (ToolMessage c call_id f) ->
      exists j, j < i /\ issued_at msgs j f call_id /\ users_between msgs j i) ->
  (forall c call_id f,
      m = ToolMessage c call_id f ->
      exists j, j < List.length msgs /\ issued_at msgs j f call_id
                /\ users_between msgs j (List.length msgs)) ->
  forall i c call_id f,
    nth_error (msgs ++ [m]) i = Some (ToolMessage c call_id f) ->
    exists j, j < i /\ issued_at (msgs ++ [m]) j f call_id
              /\ users_between (msgs ++ [m]) j i.
Proof.
  intros Hold Hnew i c call_id f H. apply nth_error_snoc in H.
  destruct H as [[Hlt H] | [Hi Hm]].
  - destruct (Hold _ _ _ _ H) as [j [Hj [Hiss Hbet]]]. exists j.
    repeat split; [exact Hj | apply issued_at_snoc; [lia | exact Hiss]
                  | apply users_between_snoc; [lia | exact Hbet]].
  - subst i. destruct (Hnew _ _ _ (eq_sym Hm)) as [j [Hj [Hiss Hbet]]]. exists j.
    repeat split; [exact Hj | apply issued_at_snoc; [lia | exact Hiss]
                  | apply users_between_snoc; [lia | exact Hbet]].
Qed.

Lemma Answered_initial : Answered initial_state.
Proof.
  constructor; simpl.
  - intros i c call_id f H. destruct i; discriminate.
  - intros f call_id H. discriminate.
Qed.

Lemma Answered_clear (st : State) : Answered st -> Answered (set_pending None st).
Proof.
  intros [Hr Hp]. constructor; simpl; [exact Hr |].
  intros f call_id H. discriminate.
Qed.

Lemma Answered_user (st : State) (c : json) :
  Answered st -> Answered (append (UserMessage c) st).
Proof.
  intros [Hr Hp]. constructor; simpl.
  - apply answered_results_snoc; [exact Hr |]. intros; discriminate.
  - intros f call_id H. destruct (Hp _ _ H) as [j [Hj [Hiss Hbet]]].
    exists j. rewrite length_app. simpl.
    repeat split; [lia | now apply issued_at_snoc |].
    intros k Hk. destruct (Nat.eq_dec k (List.length (messages st))) as [-> | Hne].
    + exists c. apply nth_error_snoc_last.
    + destruct (Hbet k) as [c' Hc']; [lia |]. exists c'.
      rewrite nth_error_snoc_old by lia. exact Hc'.
Qed.

Lemma Answered_plain (st : State) (c : json) :
  Answered st -> Answered (set_pending None (append (AssistantMessage c []) st)).
Proof.
  intros [Hr Hp]. constructor; simpl.
  - apply answered_results_snoc; [exact Hr |]. intros; discriminate.
  - intros f call_id H. discriminate.
Qed.

Lemma Answered_invoke (thought func arguments : json) (view : string) (st : State) :
  Answered st -> Answered (invoke thought func arguments view st).
Proof.
  intros [Hr Hp]. unfold invoke. constructor; simpl.
  - apply answered_results_snoc; [exact Hr |]. intros; discriminate.
  - intros f call_id H. inversion H; subst f call_id.
    exists (List.length (messages st)). rewrite length_app. simpl.
    repeat split; [lia | |].
    + exists thought, arguments, view. apply nth_error_snoc_last.
    + intros k Hk. lia.
Qed.

Lemma Answered_attach (st : State) (c f : json) (call_id : string) :
  pending_tool_call st = Some (f, call_id) ->
  Answered st ->
  Answered (set_pending None (append (ToolMessage c call_id f) st)).
Proof.
  intros Hpend [Hr Hp]. constructor; simpl.
  - apply answered_results_snoc; [exact Hr |].
    intros c' call_id' f' E. inversion E; subst. now apply Hp.
  - intros f' call_id' H. discriminate.
Qed.

Lemma agent_action_Answered (f : Fields) (st st' : State) :
  Answered st -> agent_action f st = Ok st' -> Answered st'.
Proof.
  intros A H. unfold agent_action in H. bind_ok H.
  destruct (eq_str (action f) "run").
  { bind_ok H. ok_inv H. now apply Answered_invoke. }
  destruct (eq_str (action f) "read").
  { bind_ok H. ok_inv H. now apply Answered_invoke. }
  destruct (eq_str (action f) "write").
  { bind_ok H. ok_inv H. now apply Answered_invoke. }
  destruct (eq_str (action f) "think").
  { ok_inv H. now apply Answered_plain. }
  destruct (eq_str (action f) "finish").
  { bind_ok H. ok_inv H. now apply Answered_plain. }
  ok_inv H. now apply Answered_invoke.
Qed.

Lemma process_event_Answered (st st' : State) (event : json) :
  Answered st -> process_event st event = Ok st' -> Answered st'.
Proof.
  intros A H. destruct event as [| | | | | | ev]; try discriminate H.
  rewrite process_event_rule in H. cbv zeta in H.
  destruct (rule_of (read_fields ev)).
  - now ok_inv H.
  - bind_ok H. ok_inv H. destruct (truthy _); [now apply Answered_user | exact A].
  - eapply agent_action_Answered; eauto.
  - bind_ok H. ok_inv H.
    destruct (truthy _); [now apply Answered_plain | now apply Answered_clear].
  - destruct (truthy (observation (read_fields ev))); [| now ok_inv H].
    destruct (pending_tool_call st) as [[func_name call_id] |] eqn:P; [| now ok_inv H].
    bind_ok H. ok_inv H. now apply Answered_attach.
Qed.

Lemma run_Answered (history : list json) :
  forall st st', Answered st -> run st history = Ok st' -> Answered st'.
Proof.
  induction history as [|event rest IH]; intros st st' A H; simpl in H.
  - now ok_inv H.
  - bind_ok H. eapply IH; [| exact H]. eapply process_event_Answered; eauto.
Qed.

(** X6: a tool result answers the nearest assistant message before it: that
    message carries exactly one call, with the identifier and the function
    name of the result, and only user messages stand between the two. *)
Theorem result_answers_nearest_call (history : list json) (msgs : list Message) :
  convert_openhands_history_to_messages history = Ok msgs ->
  forall i c call_id f,
    nth_error msgs i = Some (ToolMessage c call_id f) ->
    exists j thought arguments view,
      j < i
      /\ nth_error msgs j
         = Some (AssistantMessage thought
                   [mkToolCall call_id f arguments (mkToolCallContent "markdown" view)])
      /\ forall k, j < k < i -> exists c', nth_error msgs k = Some (UserMessage c').
Proof.
  unfold convert_openhands_history_to_messages. intros H. bind_ok H. ok_inv H.
  pose proof (run_Answered history initial_state v Answered_initial E) as [Hr _].
  intros i c call_id f Hi.
  destruct (Hr _ _ _ _ Hi) as [j [Hj [[t [a [w Hiss]]] Hbet]]].
  exists j, t, a, w. repeat split; auto.
Qed.


(** *** The content of the messages *)

(** A user message and an assistant message without a call have content. *)
Definition has_content (m : Message) : bool :=
  match m with
  | UserMessage c => truthy c
  | AssistantMessage c [] => truthy c
  | _ => true
  end.

(** The longest stored observation: 5000 characters and the marker. *)
Definition observation_bound : nat := 5000 + String.length (nl ++ "... (truncated)").

Definition bounded_result (m : Message) : Prop :=
  match m with
  | ToolMessage c _ _ => exists n, py_len c = Ok n /\ n <= observation_bound
  | _ => True
  end.

Definition emitted (m : Message) : Prop :=
  has_content m = true /\ bounded_result m.

Lemma truncate_observation_bound (v c : json) :
  truncate_observation v = Ok c ->
  exists n, py_len c = Ok n /\ n <= observation_bound.
Proof.
  unfold truncate_observation, observation_bound. intros H.
  destruct (py_len v) as [n | ?] eqn:L; cbn [bind] in H; [| discriminate].
  destruct (Nat.ltb_spec 5000 n) as [Hlt | Hle].
  - destruct v; simpl in H, L; try discriminate H.
    ok_inv H. ok_inv L. eexists. split; [reflexivity |].
    rewrite str_length_app, str_length_prefix by lia. apply Nat.le_refl.
  - ok_inv H. exists n. split; [exact L | lia].
Qed.

Lemma agent_action_emits (f : Fields) (st st' : State) :
  agent_action f st = Ok st' ->
  exists m, messages st' = messages st ++ [m] /\ emitted m.
Proof.
  intros H. unfold agent_action in H. bind_ok H.
  destruct (eq_str (action f) "run").
  { bind_ok H. ok_inv H. eexists. split; [reflexivity | now split]. }
  destruct (eq_str (action f) "read").
  { bind_ok H. ok_inv H. eexists. split; [reflexivity | now split]. }
  destruct (eq_str (action f) "write").
  { bind_ok H. ok_inv H. eexists. split; [reflexivity | now split]. }
  destruct (eq_str (action f) "think").
  { ok_inv H. eexists. split; [reflexivity | now split]. }
  destruct (eq_str (action f) "finish").
  { bind_ok H. ok_inv H. eexists. split; [reflexivity | now split]. }
  ok_inv H. eexists. split; [reflexivity | now split].
Qed.

Lemma process_event_emits (st st' : State) (event : json) :
  process_event st event = Ok st' ->
  Forall emitted (messages st) -> Forall emitted (messages st').
Proof.
  intros H F. destruct event as [| | | | | | ev]; try discriminate H.
  rewrite process_event_rule in H. cbv zeta in H.
  destruct (rule_of (read_fields ev)).
  - now ok_inv H.
  - bind_ok H. ok_inv H. destruct (truthy _) eqn:T; [| exact F].
    apply Forall_app. split; [exact F |]. constructor; [| constructor].
    split; [exact T | exact I].
  - destruct (agent_action_emits _ _ _ H) as [m [Hm Em]]. rewrite Hm.
    apply Forall_app. split; [exact F |]. constructor; [exact Em | constructor].
  - bind_ok H. ok_inv H. destruct (truthy _) eqn:T; [| exact F].
    apply Forall_app. split; [exact F |]. constructor; [| constructor].
    split; [exact T | exact I].
  - destruct (truthy (observation (read_fields ev))); [| now ok_inv H].
    destruct (pending_tool_call st) as [[func_name call_id] |]; [| now ok_inv H].
    bind_ok H. ok_inv H.
    apply Forall_app. split; [exact F |]. constructor; [| constructor].
    split; [reflexivity |]. cbn [bounded_result].
    eapply truncate_observation_bound; eauto.
Qed.

Lemma run_emits (history : list json) :
  forall st st',
    run st history = Ok st' ->
    Forall emitted (messages st) -> Forall emitted (messages st').
Proof.
  induction history as [|event rest IH]; intros st st' H F; simpl in H.
  - now ok_inv H.
  - bind_ok H. eapply IH; [exact H |]. eapply process_event_emits; eauto.
Qed.

Lemma convert_emits (history : list json) (msgs : list Message) :
  convert_openhands_history_to_messages history = Ok msgs -> Forall emitted msgs.
Proof.
  unfold convert_openhands_history_to_messages. intros H. bind_ok H. ok_inv H.
  eapply run_emits; [exact E | constructor].
Qed.

(** X7: no user message and no assistant message without a call is emitted
    with an empty content. *)
Theorem no_empty_text_message (history : list json) (msgs : list Message) :
  convert_openhands_history_to_messages history = Ok msgs ->
  forall m c,
    In m msgs ->
    m = UserMessage c \/ m = AssistantMessage c [] ->
    truthy c = true.
Proof.
  intros H m c Hin Hm. pose proof (convert_emits _ _ H) as F.
  rewrite Forall_forall in F. destruct (F m Hin) as [Hc _].
  destruct Hm as [-> | ->]; exact Hc.
Qed.

(** X8: the content of a tool message is never longer than 5016: the 5000
    characters kept and the 16 of the truncation marker. *)
Theorem tool_message_is_bounded (history : list json) (msgs : list Message) :
  convert_openhands_history_to_messages history = Ok msgs ->
  forall c call_id f,
    In (ToolMessage c call_id f) msgs ->
    exists n, py_len c = Ok n /\ n <= 5016.
Proof.
  intros H c call_id f Hin. pose proof (convert_emits _ _ H) as F.
  rewrite Forall_forall in F. destruct (F _ Hin) as [_ Hb]. exact Hb.
Qed.


(* ------------------------------------------------------------------ *)
(** ** Further properties of the aggregator *)

Definition keys (d : dict) : list string := map fst d.

(** The keys [build_agent_run] may store in the metadata. *)
Definition trajectory_keys : list string :=
  ["instance_id"; "agent_class"; "llm_model"; "metrics"; "repo"; "api"; "has_patch"].

Definition metadata_keys : list string :=
  trajectory_keys ++ ["scores"; "model_name"].

Lemma dict_get_key (k : string) (v : json) (d : dict) :
  dict_get k d = Some v -> In k (keys d).
Proof.
  induction d as [|[k' v'] d IH]; simpl; [discriminate |].
  destruct (String.eqb_spec k' k); [now left | right; auto].
Qed.

Lemma dict_get_no_key (k : string) (d : dict) :
  ~ In k (keys d) -> dict_get k d = None.
Proof.
  intros H. destruct (dict_get k d) eqn:E; [| reflexivity].
  now apply dict_get_key in E.
Qed.

Lemma keys_dict_set (k : string) (v : json) (d : dict) :
  incl (keys (dict_set k v d)) (k :: keys d).
Proof.
  induction d as [|[k' v'] d IH]; simpl.
  - intros x [<- | []]. now left.
  - destruct (String.eqb_spec k' k); simpl.
    + intros x [<- | Hx]; [subst; now left | right; now right].
    + intros x [<- | Hx]; [right; now left |].
      destruct (IH x Hx) as [<- | Hin]; [now left | right; now right].
Qed.

Lemma keys_drop_none (d : dict) : incl (keys (drop_none d)) (keys d).
Proof.
  induction d as [|[k' v'] d IH]; simpl; [intros x [] |].
  destruct (is_none v'); simpl.
  - intros x Hx. right. now apply IH.
  - intros x [<- | Hx]; [now left | right; now apply IH].
Qed.

Lemma keys_set_within (k : string) (v : json) (d : dict) (allowed : list string) :
  In k allowed -> incl (keys d) allowed -> incl (keys (dict_set k v d)) allowed.
Proof.
  intros Hk Hd x Hx. destruct (keys_dict_set k v d x Hx) as [<- | Hin]; auto.
Qed.

Lemma dict_get_drop_none_other (k k' : string) (v : json) (d : dict) :
  (k' =? k) = false ->
  dict_get k (drop_none (dict_set k' v d)) = dict_get k (drop_none d).
Proof.
  intros Hne. induction d as [|[k0 v0] d IH]; simpl.
  - destruct (is_none v); simpl; [reflexivity | now rewrite Hne].
  - destruct (k0 =? k') eqn:E; simpl.
    + apply String.eqb_eq in E. subst k0.
      destruct (is_none v), (is_none v0); simpl; rewrite ?Hne; reflexivity.
    + destruct (is_none v0); simpl; [exact IH |].
      destruct (k0 =? k); [reflexivity | exact IH].
Qed.

(** Decompose nested successful steps, wherever they stand. *)
Ltac bind_inv :=
  repeat match goal with
         | H : bind ?e _ = Ok _ |- _ =>
             let v := fresh "v" in
             let E := fresh "E" in
             destruct e as [v | ?] eqn:E; cbn [bind] in H; [| discriminate H]
         | H : Ok _ = Ok _ |- _ => inversion H; subst; clear H
         end.

Ltac allowed_key := simpl; auto 12.

(** The metadata copied from the trajectory: its keys, and the identifier. *)
Lemma trajectory_metadata_spec (traj_data : dict) (instance_id : json) (md : dict) :
  trajectory_metadata traj_data instance_id = Ok md ->
  incl (keys md) trajectory_keys /\ dict_get "instance_id" md = Some instance_id.
Proof.
  unfold trajectory_metadata. intros H.
  destruct (truthy (get traj_data "metadata" (JObj [])));
    destruct (truthy (get traj_data "metrics" (JObj [])));
    destruct (truthy (get traj_data "instance" (JObj [])));
    destruct (truthy (get traj_data "test_result" (JObj [])));
    bind_inv;
    (split;
     [ intros x Hx; cbn in Hx;
       repeat (destruct Hx as [<- | Hx]; [allowed_key |]); destruct Hx
     | reflexivity ]).
Qed.


(** The model name as [build_agent_run] attaches it (lines 311-312). *)
Definition with_model_name (model_name : option string) (metadata : dict) : dict :=
  match model_name with
  | Some name =>
      if truthy (JStr name) then dict_set "model_name" (JStr name) metadata
      else metadata
  | None => metadata
  end.

(** The steps of a call of [build_agent_run] that returns a run. *)
Inductive Built (traj_data : dict) (logs_dir : option LogsDir)
    (model_name : option string) (run_report : option json) (r : AgentRun) : Prop :=
| mkBuilt (events : list json) (msgs : list Message) (md scores0 scores : dict)
    (built_id : truthy (get traj_data "instance_id" JNull) = true)
    (built_history : truthy (get traj_data "history" (JArr [])) = true)
    (built_iter : py_iter (get traj_data "history" (JArr [])) = Ok events)
    (built_convert : convert_openhands_history_to_messages events = Ok msgs)
    (built_nonempty : msgs <> [])
    (built_trajectory :
       trajectory_metadata traj_data (get traj_data "instance_id" JNull) = Ok md)
    (built_load :
       load_scores logs_dir (get traj_data "instance_id" JNull) = Ok scores0)
    (built_check :
       check_run_report run_report (get traj_data "instance_id" JNull) scores0
       = Ok scores)
    (built_run :
       r = mkAgentRun [mkTranscript msgs]
             (drop_none (with_model_name model_name
                           (dict_set "scores" (JObj scores) md)))).

Lemma build_agent_run_Built (traj_data : dict) (logs_dir : option LogsDir)
    (model_name : option string) (run_report : option json) (r : AgentRun) :
  build_agent_run traj_data logs_dir model_name run_report = Ok (Some r)
  <-> Built traj_data logs_dir model_name run_report r.
Proof.
  unfold build_agent_run. split.
  - intros H.
    destruct (truthy (get traj_data "instance_id" JNull)) eqn:T1; [| discriminate].
    destruct (truthy (get traj_data "history" (JArr []))) eqn:T2; [| discriminate].
    cbn [negb] in H.
    destruct (py_iter (get traj_data "history" (JArr []))) as [events | ?] eqn:E1;
      cbn [bind] in H; [| discriminate].
    destruct (convert_openhands_history_to_messages events) as [[|m msgs] | ?] eqn:E2;
      cbn [bind] in H; try discriminate.
    destruct (trajectory_metadata traj_data (get traj_data "instance_id" JNull))
      as [md | ?] eqn:E3; cbn [bind] in H; [| discriminate].
    destruct (load_scores logs_dir (get traj_data "instance_id" JNull))
      as [scores0 | ?] eqn:E4; cbn [bind] in H; [| discriminate].
    destruct (check_run_report run_report (get traj_data "instance_id" JNull) scores0)
      as [scores | ?] eqn:E5; cbn [bind] in H; [| discriminate].
    ok_inv H.
    now apply (mkBuilt _ _ _ _ _ events (m :: msgs) md scores0 scores).
  - intros [events msgs md scores0 scores T1 T2 E1 E2 Hne E3 E4 E5 ->].
    rewrite T1, T2. cbn [negb]. rewrite E1. cbn [bind]. rewrite E2. cbn [bind].
    destruct msgs as [|m msgs]; [congruence |].
    rewrite E3. cbn [bind]. rewrite E4. cbn [bind]. rewrite E5. reflexivity.
Qed.

Lemma dict_get_with_model_name_other (k : string) (model_name : option string) (d : dict) :
  ("model_name" =? k) = false ->
  dict_get k (drop_none (with_model_name model_name d)) = dict_get k (drop_none d).
Proof.
  intros H. unfold with_model_name.
  destruct model_name as [name |]; [| reflexivity].
  destruct (truthy (JStr name)); [| reflexivity].
  now apply dict_get_drop_none_other.
Qed.

(** X9: a run that is returned holds one transcript, whose messages are the
    conversion of the history and are not empty, and its metadata give the
    instance identifier, which is not empty. *)
Theorem built_run_shape (traj_data : dict) (logs_dir : option LogsDir)
    (model_name : option string) (run_report : option json) (r : AgentRun) :
  build_agent_run traj_data logs_dir model_name run_report = Ok (Some r) ->
  let instance_id := get traj_data "instance_id" JNull in
  truthy instance_id = true
  /\ dict_get "instance_id" (metadata r) = Some instance_id
  /\ exists events msgs,
       py_iter (get traj_data "history" (JArr [])) = Ok events
       /\ convert_openhands_history_to_messages events = Ok msgs
       /\ msgs <> []
       /\ transcripts r = [mkTranscript msgs].
Proof.
  intros H instance_id. apply build_agent_run_Built in H.
  destruct H as [events msgs md scores0 scores T1 T2 E1 E2 Hne E3 E4 E5 ->].
  fold instance_id in T1, E3.
  split; [exact T1 |]. split.
  - cbn [metadata]. apply dict_get_drop_none.
    + destruct (trajectory_metadata_spec _ _ _ E3) as [_ G].
      unfold with_model_name.
      destruct model_name as [name |]; [destruct (truthy (JStr name)) |];
        rewrite ?dict_get_set_other by reflexivity; exact G.
    + destruct instance_id; try reflexivity. discriminate T1.
  - exists events, msgs. auto.
Qed.

(** X10: [build_agent_run] returns no run, and does not raise, exactly when
    the instance identifier is missing or empty, the history is missing or
    empty, or the history converts to no message. *)
Theorem discarded_trajectories (traj_data : dict) (logs_dir : option LogsDir)
    (model_name : option string) (run_report : option json) :
  build_agent_run traj_data logs_dir model_name run_report = Ok None
  <-> truthy (get traj_data "instance_id" JNull) = false
      \/ truthy (get traj_data "history" (JArr [])) = false
      \/ exists events,
           py_iter (get traj_data "history" (JArr [])) = Ok events
           /\ convert_openhands_history_to_messages events = Ok [].
Proof.
  unfold build_agent_run.
  destruct (truthy (get traj_data "instance_id" JNull)) eqn:T1; cbn [negb].
  2: { split; auto. }
  destruct (truthy (get traj_data "history" (JArr []))) eqn:T2; cbn [negb].
  2: { split; auto. }
  destruct (py_iter (get traj_data "history" (JArr []))) as [events | ?] eqn:E1;
    cbn [bind].
  2: { split; [discriminate |]. intros [H | [H | [ev [H _]]]]; discriminate. }
  destruct (convert_openhands_history_to_messages events) as [[|m msgs] | ?] eqn:E2;
    cbn [bind].
  - split; [| reflexivity]. intros _. right. right. now exists events.
  - split.
    + intros H. exfalso.
      destruct (trajectory_metadata _ _); cbn [bind] in H; [| discriminate].
      destruct (load_scores _ _); cbn [bind] in H; [| discriminate].
      destruct (check_run_report _ _ _); cbn [bind] in H; discriminate.
    + intros [H | [H | [ev [H1 H2]]]]; try discriminate. congruence.
  - split; [discriminate |].
    intros [H | [H | [ev [H1 H2]]]]; try discriminate. congruence.
Qed.

(** X11: the metadata of a run hold no key outside the nine the function
    stores, always hold "scores", and hold no null value. *)
Theorem metadata_keys_are_closed (traj_data : dict) (logs_dir : option LogsDir)
    (model_name : option string) (run_report : option json) (r : AgentRun) :
  build_agent_run traj_data logs_dir model_name run_report = Ok (Some r) ->
  incl (keys (metadata r)) metadata_keys
  /\ In "scores" (keys (metadata r))
  /\ forall k, dict_get k (metadata r) <> Some JNull.
Proof.
  intros H. pose proof (build_agent_run_scores _ _ _ _ _ H) as S.
  cbv zeta in S. destruct S as [s0 [s [_ [_ [Hs Hnull]]]]].
  apply build_agent_run_Built in H.
  destruct H as [events msgs md scores0 scores T1 T2 E1 E2 Hne E3 E4 E5 ->].
  destruct (trajectory_metadata_spec _ _ _ E3) as [K _].
  repeat split.
  - cbn [metadata]. intros x Hx. apply keys_drop_none in Hx.
    assert (W : incl (keys (dict_set "scores" (JObj scores) md)) metadata_keys).
    { apply keys_set_within; [allowed_key |].
      intros y Hy. apply in_or_app. left. now apply K. }
    unfold with_model_name in Hx.
    destruct model_name as [name |]; [destruct (truthy (JStr name)) |]; auto.
    revert x Hx. apply keys_set_within; [allowed_key | exact W].
  - eapply dict_get_key. exact Hs.
  - exact Hnull.
Qed.

(** X12: the metadata name the model exactly when the caller gave a model
    name that is not empty. *)
Theorem model_name_is_attached (traj_data : dict) (logs_dir : option LogsDir)
    (model_name : option string) (run_report : option json) (r : AgentRun) :
  build_agent_run traj_data logs_dir model_name run_report = Ok (Some r) ->
  dict_get "model_name" (metadata r)
  = match model_name with
    | Some name => if (name =? "") then None else Some (JStr name)
    | None => None
    end.
Proof.
  intros H. apply build_agent_run_Built in H.
  destruct H as [events msgs md scores0 scores T1 T2 E1 E2 Hne E3 E4 E5 ->].
  destruct (trajectory_metadata_spec _ _ _ E3) as [K _].
  assert (N : dict_get "model_name"
                (drop_none (dict_set "scores" (JObj scores) md)) = None).
  { apply dict_get_no_key. intros Hin. apply keys_drop_none in Hin.
    destruct (keys_dict_set _ _ _ _ Hin) as [E | Hin']; [discriminate E |].
    apply K in Hin'. simpl in Hin'.
    repeat (destruct Hin' as [E | Hin']; [discriminate E |]). exact Hin'. }
  cbn [metadata]. unfold with_model_name.
  destruct model_name as [name |]; [| exact N].
  cbn [truthy]. destruct (name =? ""); cbn [negb]; [exact N |].
  apply dict_get_drop_none; [apply dict_get_set_same | reflexivity].
Qed.


Lemma first_listed_label (instance_id instance_sets : json) (label : string)
    (table : list (string * string)) :
  first_listed instance_id instance_sets table = Ok (Some label) ->
  In label (map snd table).
Proof.
  intros H. destruct (first_listed_Some _ _ _ _ H) as [before [name [after [-> _]]]].
  rewrite map_app. apply in_or_app. right. now left.
Qed.

(** Before the run-level report is read, the status is "unknown" when no
    instance report was found, and absent when one was. *)
Lemma load_scores_status (logs_dir : option LogsDir) (instance_id : json) (scores0 : dict) :
  load_scores logs_dir instance_id = Ok scores0 ->
  (dict_get "status" scores0 = Some (JStr "unknown")
   /\ (logs_dir = None
       \/ exists dir report,
            logs_dir = Some dir /\ load_gso_report dir instance_id = Ok report
            /\ truthy report = false))
  \/ (dict_get "status" scores0 = None
      /\ exists dir report,
           logs_dir = Some dir /\ load_gso_report dir instance_id = Ok report
           /\ truthy report = true).
Proof.
  unfold load_scores. intros H.
  destruct logs_dir as [dir |]; [| ok_inv H; left; split; [reflexivity | now left]].
  destruct (load_gso_report dir instance_id) as [report | ?] eqn:L;
    cbn [bind] in H; [| discriminate].
  destruct (truthy report) eqn:T.
  - right. split; [| now exists dir, report].
    bind_inv. destruct (truthy v4); bind_inv; reflexivity.
  - ok_inv H. left. split; [reflexivity |]. right. now exists dir, report.
Qed.

(** X13: a status stored in the scores is one of the six labels; it is
    stored whenever no instance report was found, and whenever one of the
    five sets of a run-level report lists the instance. *)
Theorem status_is_a_label (traj_data : dict) (logs_dir : option LogsDir)
    (model_name : option string) (run_report : option json) (r : AgentRun) :
  build_agent_run traj_data logs_dir model_name run_report = Ok (Some r) ->
  exists scores,
    dict_get "scores" (metadata r) = Some (JObj scores)
    /\ (forall v, dict_get "status" scores = Some v ->
                  exists label, In label status_labels /\ v = JStr label)
    /\ (logs_dir = None -> dict_get "status" scores <> None)
    /\ (forall report label,
          run_report = Some report ->
          status_choice report (get traj_data "instance_id" JNull) = Ok (Some label) ->
          dict_get "status" scores = Some (JStr label)).
Proof.
  intros H. destruct (build_agent_run_scores _ _ _ _ _ H)
    as [scores0 [scores [H0 [H1 [H2 _]]]]]. cbv zeta in H0, H1.
  exists scores. split; [exact H2 |].
  pose proof (load_scores_status _ _ _ H0) as S0.
  destruct run_report as [report |].
  - rewrite check_run_report_choice in H1.
    destruct (status_choice report (get traj_data "instance_id" JNull))
      as [choice | ?] eqn:C; cbn [bind] in H1; [| discriminate]. ok_inv H1.
    destruct choice as [label |]; cbn [with_status].
    + rewrite dict_get_set_same. repeat split.
      * intros v Hv. ok_inv Hv. exists label. split; [| reflexivity].
        unfold status_choice in C. destruct (truthy report); [| discriminate].
        destruct (attr_get report "instance_sets" (JObj [])); cbn [bind] in C;
          [| discriminate].
        apply first_listed_label in C. simpl in C. simpl. tauto.
      * discriminate.
      * intros report' label' E C'. ok_inv E. congruence.
    + repeat split.
      * intros v Hv. destruct S0 as [[S _] | [S _]]; rewrite S in Hv; [| discriminate].
        ok_inv Hv. exists "unknown". split; [now left | reflexivity].
      * intros ->. destruct S0 as [[S _] | [_ [dir [rep [E _]]]]]; [| discriminate].
        rewrite S. discriminate.
      * intros report' label' E C'. ok_inv E. congruence.
  - ok_inv H1. repeat split.
    + intros v Hv. destruct S0 as [[S _] | [S _]]; rewrite S in Hv; [| discriminate].
      ok_inv Hv. exists "unknown". split; [now left | reflexivity].
    + intros ->. destruct S0 as [[S _] | [_ [dir [rep [E _]]]]]; [| discriminate].
      rewrite S. discriminate.
    + intros report label E. discriminate.
Qed.

(** X14: the run-level report bears on the status only.  The call without
    it returns a run with the same transcript, the same metadata outside
    "scores", and the same scores outside "status". *)
Theorem run_report_sets_status_only (traj_data : dict) (logs_dir : option LogsDir)
    (model_name : option string) (run_report : option json) (r : AgentRun) :
  build_agent_run traj_data logs_dir model_name run_report = Ok (Some r) ->
  exists r' scores scores',
    build_agent_run traj_data logs_dir model_name None = Ok (Some r')
    /\ transcripts r' = transcripts r
    /\ (forall k, ("scores" =? k) = false ->
                  dict_get k (metadata r') = dict_get k (metadata r))
    /\ dict_get "scores" (metadata r) = Some (JObj scores)
    /\ dict_get "scores" (metadata r') = Some (JObj scores')
    /\ (forall k, ("status" =? k) = false -> dict_get k scores = dict_get k scores').
Proof.
  intros H. pose proof (build_agent_run_scores _ _ _ _ _ H) as S.
  cbv zeta in S. destruct S as [s0 [s [S0 [S1 [S2 _]]]]].
  apply build_agent_run_Built in H.
  destruct H as [events msgs md scores0 scores T1 T2 E1 E2 Hne E3 E4 E5 ->].
  assert (s0 = scores0) by congruence. subst s0.
  assert (s = scores) by congruence. subst s.
  set (r' := mkAgentRun [mkTranscript msgs]
               (drop_none (with_model_name model_name
                             (dict_set "scores" (JObj scores0) md)))).
  assert (B : build_agent_run traj_data logs_dir model_name None = Ok (Some r')).
  { apply build_agent_run_Built.
    now apply (mkBuilt _ _ _ _ _ events msgs md scores0 scores0). }
  destruct (build_agent_run_scores _ _ _ _ _ B) as [t0 [t [B0 [B1 [B2 _]]]]].
  cbv zeta in B0, B1. ok_inv B1. assert (t = scores0) by congruence. subst t.
  exists r', scores, scores0. repeat split; auto.
  - intros k Hk. unfold r'. cbn [metadata].
    unfold with_model_name.
    destruct model_name as [name |]; [destruct (truthy (JStr name)) |].
    + destruct ("model_name" =? k) eqn:M.
      * apply String.eqb_eq in M. subst k.
        rewrite !(dict_get_drop_none "model_name" (JStr name));
          auto using dict_get_set_same.
      * rewrite !dict_get_drop_none_other by assumption. reflexivity.
    + rewrite !dict_get_drop_none_other by assumption. reflexivity.
    + rewrite !dict_get_drop_none_other by assumption. reflexivity.
  - intros k Hk. eapply check_run_report_keeps; eauto.
Qed.

(** X15: on an identifier that is text, [load_gso_report] raises only when
    the check of the report path does (OSError).  Otherwise it returns the
    entry of the instance in a report that parsed to a dict holding it, and
    the empty dict in every other case: no file, a file that cannot be read
    or parsed, a document that is no dict, no entry for the instance. *)
Theorem load_gso_report_falls_back (logs_dir : LogsDir) (iid : string) :
  (logs_dir iid = Inaccessible ->
   load_gso_report logs_dir (JStr iid) = Raise OSError)
  /\ (logs_dir iid <> Inaccessible ->
      exists v,
        load_gso_report logs_dir (JStr iid) = Ok v
        /\ ((exists report, logs_dir iid = Parsed (JObj report)
                            /\ dict_get iid report = Some v)
            \/ (v = JObj []
                /\ forall report, logs_dir iid = Parsed (JObj report) ->
                                  dict_get iid report = None))).
Proof.
  unfold load_gso_report. split.
  - intros ->. reflexivity.
  - intros Hacc.
    destruct (logs_dir iid) as [| | | report] eqn:L.
    + exists (JObj []). split; [reflexivity |]. right. split; [reflexivity |].
      intros report H. discriminate.
    + contradiction.
    + exists (JObj []). split; [reflexivity |]. right. split; [reflexivity |].
      intros report H. discriminate.
    + destruct report as [| | | | | | d];
        try (exists (JObj []); split; [reflexivity |]; right;
             split; [reflexivity |]; intros report H; discriminate).
      cbn [attr_get]. unfold get.
      destruct (dict_get iid d) as [v |] eqn:G.
      * exists v. split; [reflexivity |]. left. now exists d.
      * exists (JObj []). split; [reflexivity |]. right. split; [reflexivity |].
        intros report H. ok_inv H. exact G.
Qed.

(** X16: with a logs directory, an instance identifier that is not text
    makes [build_agent_run] raise TypeError, where the same trajectory
    without a logs directory gives a run. *)
Theorem non_text_identifier_raises (traj_data : dict) (dir : LogsDir)
    (model_name : option string) (run_report : option json)
    (events : list json) (m : Message) (msgs : list Message) (md : dict) :
  let instance_id := get traj_data "instance_id" JNull in
  truthy instance_id = true ->
  is_text instance_id = false ->
  py_iter (get traj_data "history" (JArr [])) = Ok events ->
  convert_openhands_history_to_messages events = Ok (m :: msgs) ->
  trajectory_metadata traj_data instance_id = Ok md ->
  build_agent_run traj_data (Some dir) model_name run_report = Raise TypeError
  /\ exists r, build_agent_run traj_data None model_name None = Ok (Some r).
Proof.
  intros instance_id T1 N E1 E2 E3.
  assert (T2 : truthy (get traj_data "history" (JArr [])) = true).
  { destruct (get traj_data "history" (JArr [])) as [| | | | s | l | d];
      try discriminate E1.
    - destruct s; [| reflexivity]. ok_inv E1.
      unfold convert_openhands_history_to_messages in E2. discriminate E2.
    - destruct l; [| reflexivity]. ok_inv E1.
      unfold convert_openhands_history_to_messages in E2. discriminate E2.
    - destruct d; [| reflexivity]. ok_inv E1.
      unfold convert_openhands_history_to_messages in E2. discriminate E2. }
  split.
  - unfold build_agent_run. fold instance_id. rewrite T1, T2. cbn [negb].
    rewrite E1. cbn [bind]. rewrite E2. cbn [bind]. rewrite E3. cbn [bind].
    unfold load_scores, load_gso_report.
    destruct instance_id; try reflexivity. discriminate N.
  - eexists. apply build_agent_run_Built.
    eapply (mkBuilt _ _ _ _ _ events (m :: msgs) md); eauto; try discriminate;
      reflexivity.
Qed.


(* ------------------------------------------------------------------ *)
(** ** The upload batches of [ingest_trajectories] *)

(** [range(i, stop, step)] for a positive [step], by the loop that yields
    [i] and moves on by [step] while [i < stop]; [fuel] bounds the number
    of elements. *)
Fixpoint range_from (fuel i stop step : nat) : list nat :=
  match fuel with
  | 0 => []
  | S fuel' =>
      if (i <? stop)%nat then i :: range_from fuel' (i + step) stop step else []
  end.

(** [range(0, stop, step)]: a zero step raises ValueError ([None]), a
    negative step from 0 yields nothing. *)
Definition py_range (stop : nat) (step : Z) : option (list nat) :=
  if (step =? 0)%Z then None
  else if (step <? 0)%Z then Some []
  else Some (range_from stop 0 stop (Z.to_nat step)).

(** The slices [agent_runs[i : i + batch_size]] handed to the client, in
    order (lines 398-400). *)
Definition upload_batches {A : Type} (agent_runs : list A) (batch_size : Z)
  : option (list (list A)) :=
  match py_range (List.length agent_runs) batch_size with
  | None => None
  | Some starts =>
      Some (map (fun i => firstn (Z.to_nat batch_size) (skipn i agent_runs)) starts)
  end.

Lemma range_from_batches {A : Type} (l : list A) (b : nat) :
  0 < b ->
  forall fuel i,
    List.length l <= fuel + i ->
    let batches :=
      map (fun i => firstn b (skipn i l)) (range_from fuel i (List.length l) b) in
    concat batches = skipn i l
    /\ Forall (fun batch => 1 <= List.length batch <= b) batches
    /\ Forall (fun batch => List.length batch = b) (removelast batches).
Proof.
  intros Hb. induction fuel as [|fuel IH]; intros i Hfuel; cbn [range_from].
  - simpl. rewrite skipn_all2 by lia. repeat split; constructor.
  - destruct (Nat.ltb_spec i (List.length l)) as [Hlt | Hge].
    + destruct (IH (i + b)) as [Hc [Hf Hr]]; [lia |].
      cbn [map concat]. repeat split.
      * rewrite Hc. rewrite <- (firstn_skipn b (skipn i l)) at 2.
        f_equal. rewrite skipn_skipn. f_equal. lia.
      * constructor; [| exact Hf].
        rewrite length_firstn, length_skipn. lia.
      * destruct (range_from fuel (i + b) (List.length l) b) as [|j rest] eqn:R.
        { constructor. }
        cbn [map removelast]. cbn [map] in Hr. constructor; [| exact Hr].
        rewrite length_firstn, length_skipn.
        assert (i + b < List.length l).
        { destruct fuel; cbn [range_from] in R; [discriminate |].
          destruct (Nat.ltb_spec (i + b) (List.length l)); [lia | discriminate]. }
        lia.
    + simpl. rewrite skipn_all2 by lia. repeat split; constructor.
Qed.

(** X17: with a positive batch size the batches, in order, make up the
    runs: none is empty or longer than the batch size, and all but the last
    are full.  A negative batch size uploads nothing, and a zero one raises
    before any upload. *)
Theorem upload_batches_partition {A : Type} (agent_runs : list A) (batch_size : Z) :
  ((0 < batch_size)%Z ->
   exists batches,
     upload_batches agent_runs batch_size = Some batches
     /\ concat batches = agent_runs
     /\ Forall (fun batch => 1 <= List.length batch <= Z.to_nat batch_size) batches
     /\ Forall (fun batch => List.length batch = Z.to_nat batch_size)
          (removelast batches))
  /\ ((batch_size < 0)%Z -> upload_batches agent_runs batch_size = Some [])
  /\ (batch_size = 0%Z -> upload_batches agent_runs batch_size = None).
Proof.
  unfold upload_batches, py_range. repeat split.
  - intros Hpos.
    destruct (Z.eqb_spec batch_size 0); [lia |].
    destruct (Z.ltb_spec batch_size 0); [lia |].
    eexists. split; [reflexivity |].
    destruct (range_from_batches agent_runs (Z.to_nat batch_size))
      with (fuel := List.length agent_runs) (i := 0) as [Hc [Hf Hr]]; try lia.
    repeat split; auto.
  - intros Hneg.
    destruct (Z.eqb_spec batch_size 0); [lia |].
    destruct (Z.ltb_spec batch_size 0); [reflexivity | lia].
  - intros ->. reflexivity.
Qed.


(* ------------------------------------------------------------------ *)
(** ** The fields copied from the trajectory *)

Lemma dict_get_drop_none_unique (k : string) (d : dict) :
  NoDup (keys d) ->
  dict_get k (drop_none d)
  = match dict_get k d with
    | Some v => if is_none v then None else Some v
    | None => None
    end.
Proof.
  induction d as [|[k' v'] d IH]; simpl; intros ND; [reflexivity |].
  inversion ND as [|? ? Hnot ND']; subst.
  destruct (String.eqb_spec k' k) as [-> | Hne].
  - destruct (is_none v') eqn:N; simpl.
    + apply dict_get_no_key. intros Hin. apply Hnot. now apply keys_drop_none.
    + now rewrite String.eqb_refl.
  - destruct (is_none v'); simpl; [now apply IH |].
    destruct (String.eqb_spec k' k); [contradiction | now apply IH].
Qed.

Lemma truthy_not_none (v : json) : truthy v = true -> is_none v = false.
Proof. destruct v; simpl; congruence. Qed.

Lemma trajectory_metadata_fields (traj_data : dict) (instance_id : json) (md : dict) :
  trajectory_metadata traj_data instance_id = Ok md ->
  NoDup (keys md)
  /\ dict_get "metrics" md
     = (if truthy (get traj_data "metrics" (JObj []))
        then Some (get traj_data "metrics" (JObj [])) else None)
  /\ (truthy (get traj_data "test_result" (JObj [])) = false ->
      dict_get "has_patch" md = None)
  /\ (forall test_result,
        get traj_data "test_result" (JObj []) = JObj test_result ->
        test_result <> [] ->
        dict_get "has_patch" md
        = Some (JBool (truthy (get test_result "git_patch" JNull)))).
Proof.
  unfold trajectory_metadata. intros H.
  destruct (truthy (get traj_data "metadata" (JObj [])));
    destruct (truthy (get traj_data "metrics" (JObj [])));
    destruct (truthy (get traj_data "instance" (JObj [])));
    destruct (truthy (get traj_data "test_result" (JObj []))) eqn:T;
    bind_inv;
    (split; [cbn; repeat constructor; simpl; intuition discriminate |]);
    (split; [reflexivity |]);
    (split; [intros F; first [discriminate F | reflexivity] |]);
    intros test_result Ht Hne;
    rewrite Ht in *;
    try (destruct test_result; [congruence | discriminate T]);
    match goal with
    | E : attr_get (JObj test_result) "git_patch" JNull = Ok _ |- _ =>
        cbn [attr_get] in E; inversion E; subst; reflexivity
    end.
Qed.

(** X18: the metadata copy the metrics block as it is when it is not empty,
    and "has_patch" tells whether the test result holds a non-empty
    git_patch; both keys are absent when their block is missing or empty. *)
Theorem metrics_and_patch_flag (traj_data : dict) (logs_dir : option LogsDir)
    (model_name : option string) (run_report : option json) (r : AgentRun) :
  build_agent_run traj_data logs_dir model_name run_report = Ok (Some r) ->
  dict_get "metrics" (metadata r)
  = (if truthy (get traj_data "metrics" (JObj []))
     then Some (get traj_data "metrics" (JObj [])) else None)
  /\ (truthy (get traj_data "test_result" (JObj [])) = false ->
      dict_get "has_patch" (metadata r) = None)
  /\ (forall test_result,
        get traj_data "test_result" (JObj []) = JObj test_result ->
        test_result <> [] ->
        dict_get "has_patch" (metadata r)
        = Some (JBool (truthy (get test_result "git_patch" JNull)))).
Proof.
  intros H. apply build_agent_run_Built in H.
  destruct H as [events msgs md scores0 scores T1 T2 E1 E2 Hne E3 E4 E5 ->].
  destruct (trajectory_metadata_fields _ _ _ E3) as [ND [Hm [Hp0 Hp1]]].
  cbn [metadata].
  assert (G : forall k, ("model_name" =? k) = false -> ("scores" =? k) = false ->
                        dict_get k (drop_none (with_model_name model_name
                                     (dict_set "scores" (JObj scores) md)))
                        = match dict_get k md with
                          | Some v => if is_none v then None else Some v
                          | None => None
                          end).
  { intros k M S. rewrite dict_get_with_model_name_other by exact M.
    rewrite dict_get_drop_none_other by exact S.
    now apply dict_get_drop_none_unique. }
  repeat split.
  - rewrite G by reflexivity. rewrite Hm.
    destruct (truthy (get traj_data "metrics" (JObj []))) eqn:T; [| reflexivity].
    now rewrite (truthy_not_none _ T).
  - intros F. rewrite G by reflexivity. now rewrite (Hp0 F).
  - intros test_result Ht Hn. rewrite G by reflexivity.
    now rewrite (Hp1 test_result Ht Hn).
Qed.

End Ingest.

(* ------------------------------------------------------------------ *)
(** ** The theorems at sample inputs *)

(** The fix-bug history satisfies the hypothesis of C1. *)
Lemma convert_links_results_to_calls_witness :
  convert_openhands_history_to_messages no_repr fix_bug_history = Ok fix_bug_messages
  /\ count_tool_messages fix_bug_messages <= count_invocations fix_bug_messages
  /\ (forall i c call_id f,
        nth_error fix_bug_messages i = Some (ToolMessage c call_id f) ->
        exists j m,
          j < i /\ nth_error fix_bug_messages j = Some m /\ bears_invocation m = true
          /\ In call_id (call_ids m)
          /\ (forall j' m', nth_error fix_bug_messages j' = Some m' ->
                            In call_id (call_ids m') -> j' = j))
  /\ (forall i i' c c' call_id f f',
        nth_error fix_bug_messages i = Some (ToolMessage c call_id f) ->
        nth_error fix_bug_messages i' = Some (ToolMessage c' call_id f') -> i = i')
  /\ invocation_ids fix_bug_messages
     = map call_id_of (seq 1 (count_invocations fix_bug_messages))
  /\ NoDup (invocation_ids fix_bug_messages).
Proof.
  split; [reflexivity |].
  apply (convert_links_results_to_calls no_repr fix_bug_history fix_bug_messages).
  reflexivity.
Defined.







(** The sample aggregation of C4. *)
Lemma status_follows_precedence_witness :
  get (sample_trajectory "iid") "instance_id" JNull = JStr "iid"
  /\ logs_with "iid" passed_instance_report "iid" = Parsed passed_instance_report
  /\ (exists r,
        build_agent_run no_repr (sample_trajectory "iid")
          (Some (logs_with "iid" passed_instance_report)) None (Some passed_run_report)
        = Ok (Some r)
        /\ dict_get "scores" (metadata r)
           = Some (JObj [("test_passed", JBool true);
                         ("opt_base", JBool true);
                         ("opt_commit", JBool false);
                         ("opt_main", JBool false);
                         ("patch_applied", JBool false);
                         ("status", JStr "passed")])
        /\ exists scores0 choice,
             load_scores (Some (logs_with "iid" passed_instance_report)) (JStr "iid")
             = Ok scores0
             /\ status_choice passed_run_report (JStr "iid") = Ok choice
             /\ dict_get "scores" (metadata r)
                = Some (JObj (with_status choice scores0))).
Proof.
  split; [reflexivity |]. split; [reflexivity |].
  eexists. split; [reflexivity |]. split.
  - apply (proj2 (status_follows_precedence no_repr) (sample_trajectory "iid")
             (logs_with "iid" passed_instance_report) None); reflexivity.
  - destruct (proj1 (status_follows_precedence no_repr) (sample_trajectory "iid")
                (Some (logs_with "iid" passed_instance_report)) None
                passed_run_report _ eq_refl)
      as [scores0 [choice [H0 [H1 [H2 _]]]]].
    exists scores0, choice. auto.
Defined.

(** A file of 501 characters and an observation of 5001. *)
Lemma truncation_laws_witness :
  (500 < String.length (replicate 501 "a")
   /\ write_preview (JStr (replicate 501 "a"))
      = Ok (JStr (replicate 500 "a" ++ "..."))
   /\ String.length (substring 0 500 (replicate 501 "a") ++ "...") = 503)
  /\ (5000 < String.length (replicate 5001 "b")
      /\ process_event no_repr (mkState [] (Some (JStr "bash", "call_1")) 2)
           (JObj (observation_event "run" (replicate 5001 "b")))
         = Ok (mkState
                 [ToolMessage (JStr (replicate 5000 "b" ++ nl ++ "... (truncated)"))
                    "call_1" (JStr "bash")]
                 None 2)).
Proof.
  split.
  - split; [vm_compute; lia |].
    destruct (proj1 (truncation_laws no_repr) initial_state
                (write_event "a.py" (replicate 501 "a"))
                [("path", JStr "a.py"); ("content", JStr (replicate 501 "a"))]
                (replicate 501 "a") eq_refl eq_refl eq_refl eq_refl)
      as [Hlen [Hprev _]].
    + vm_compute. lia.
    + split; [exact Hprev | exact Hlen].
  - split; [vm_compute; lia |].
    destruct (proj2 (truncation_laws no_repr)
                (mkState [] (Some (JStr "bash", "call_1")) 2)
                (observation_event "run" (replicate 5001 "b"))
                (JStr "bash") "call_1" (replicate 5001 "b")
                eq_refl eq_refl eq_refl eq_refl)
      as [_ Hstep].
    + vm_compute. lia.
    + exact Hstep.
Defined.

(** An observation at the head of a history, where no call is pending. *)
Lemma unmatched_observation_is_dropped_witness :
  rule_of (read_fields (observation_event "run" "lost")) = Remaining
  /\ run no_repr initial_state [] = Ok initial_state
  /\ pending_tool_call initial_state = None
  /\ convert_openhands_history_to_messages no_repr
       ([] ++ JObj (observation_event "run" "lost") :: fix_bug_history)
     = convert_openhands_history_to_messages no_repr ([] ++ fix_bug_history).
Proof.
  split; [reflexivity |]. split; [reflexivity |]. split; [reflexivity |].
  exact (proj2 (proj2 (proj2
           (unmatched_observation_is_dropped no_repr [] fix_bug_history
              (observation_event "run" "lost") initial_state
              eq_refl eq_refl eq_refl)))).
Defined.

(** C10 as stated fails: with an empty opt_stats block, present in the
    instance report and lacking both speedups, the scores hold neither key. *)
Lemma empty_stats_add_no_speedup :
  load_gso_report (logs_with "iid" empty_stats_report) (JStr "iid")
  = Ok (JObj [("test_passed", JBool true); ("opt_stats", JObj [])])
  /\ exists r scores,
       build_agent_run no_repr (sample_trajectory "iid")
         (Some (logs_with "iid" empty_stats_report)) None None = Ok (Some r)
       /\ dict_get "scores" (metadata r) = Some (JObj scores)
       /\ dict_get "gm_speedup_patch_base" scores = None
       /\ dict_get "gm_speedup_patch_commit" scores = None.
Proof.
  split; [reflexivity |]. do 2 eexists. repeat split.
Qed.

(** An opt_stats block that gives the speedup over the base only. *)
Lemma null_speedups_are_kept_witness :
  exists r scores,
    build_agent_run no_repr (sample_trajectory "iid")
      (Some (logs_with "iid" (JObj [("iid", JObj base_only_report)]))) None None
    = Ok (Some r)
    /\ dict_get "gm_speedup_patch_commit" base_only_stats = None
    /\ dict_get "scores" (metadata r) = Some (JObj scores)
    /\ dict_get "gm_speedup_patch_commit" scores = Some JNull.
Proof.
  eexists.
  destruct (null_speedups_are_kept no_repr (sample_trajectory "iid")
              (logs_with "iid" (JObj [("iid", JObj base_only_report)])) None None
              _ base_only_report base_only_stats eq_refl eq_refl eq_refl)
    as [scores [Hs [_ [Hc _]]]].
  - discriminate.
  - exists scores. repeat split; auto.
Defined.

(* ------------------------------------------------------------------ *)
(** ** The further properties at sample inputs *)

Definition null_args_event : dict :=
  [("source", JStr "user"); ("action", JStr "message"); ("args", JNull)].

Definition null_observation_event : dict :=
  [("observation", JStr "run"); ("content", JNull)].

Definition numbered_trajectory : dict :=
  [("instance_id", JInt 7); ("history", JArr fix_bug_history)].

Definition passed_logs : LogsDir := logs_with "iid" passed_instance_report.

Lemma convert_only_appends_witness :
  convert_openhands_history_to_messages no_repr
    ([JObj (user_event "fix bug")]
       ++ [JObj (run_event "run tests" "pytest"); JObj (observation_event "run" "2 passed")])
  = Ok fix_bug_messages
  /\ exists msgs1 added,
       convert_openhands_history_to_messages no_repr [JObj (user_event "fix bug")]
       = Ok msgs1
       /\ fix_bug_messages = msgs1 ++ added
       /\ List.length msgs1 <= 1
       /\ List.length added <= 2.
Proof.
  split; [reflexivity |].
  exact (convert_only_appends no_repr [JObj (user_event "fix bug")]
           [JObj (run_event "run tests" "pytest");
            JObj (observation_event "run" "2 passed")]
           fix_bug_messages eq_refl).
Defined.

Lemma well_formed_history_converts_witness :
  forallb well_formed_event fix_bug_history = true
  /\ exists msgs,
       convert_openhands_history_to_messages no_repr fix_bug_history = Ok msgs
       /\ forallb well_typed msgs = true.
Proof.
  split; [reflexivity |].
  exact (well_formed_history_converts no_repr fix_bug_history eq_refl).
Defined.

Lemma malformed_args_raise_witness :
  run no_repr initial_state [JObj (user_event "fix bug")]
  = Ok (mkState [UserMessage (JStr "fix bug")] None 1)
  /\ convert_openhands_history_to_messages no_repr
       ([JObj (user_event "fix bug")] ++ JObj null_args_event :: fix_bug_history)
     = Raise AttributeError.
Proof.
  split; [reflexivity |].
  apply (malformed_args_raise no_repr [JObj (user_event "fix bug")] fix_bug_history
           (JObj null_args_event) _ eq_refl).
  repeat split; discriminate.
Defined.

Lemma unsized_observation_raises_witness :
  run no_repr initial_state [JObj (run_event "" "ls")]
  = Ok (mkState [AssistantMessage (JStr "") [bash_call "call_1" "ls"]]
          (Some (JStr "bash", "call_1")) 2)
  /\ unsized (observation_content no_repr null_observation_event) = true
  /\ convert_openhands_history_to_messages no_repr
       ([JObj (run_event "" "ls")] ++ JObj null_observation_event :: [])
     = Raise TypeError.
Proof.
  split; [reflexivity |]. split; [reflexivity |].
  exact (unsized_observation_raises no_repr [JObj (run_event "" "ls")] []
           null_observation_event _ (JStr "bash") "call_1"
           eq_refl eq_refl eq_refl eq_refl eq_refl).
Defined.

Lemma result_answers_nearest_call_witness :
  nth_error fix_bug_messages 2 = Some (ToolMessage (JStr "2 passed") "call_1" (JStr "bash"))
  /\ exists j thought arguments view,
       j < 2
       /\ nth_error fix_bug_messages j
          = Some (AssistantMessage thought
                    [mkToolCall "call_1" (JStr "bash") arguments
                       (mkToolCallContent "markdown" view)])
       /\ forall k, j < k < 2 -> exists c', nth_error fix_bug_messages k = Some (UserMessage c').
Proof.
  split; [reflexivity |].
  exact (result_answers_nearest_call no_repr fix_bug_history fix_bug_messages eq_refl
           2 (JStr "2 passed") "call_1" (JStr "bash") eq_refl).
Defined.

Lemma no_empty_text_message_witness :
  In (UserMessage (JStr "fix bug")) fix_bug_messages
  /\ truthy (JStr "fix bug") = true.
Proof.
  split; [now left |].
  exact (no_empty_text_message no_repr fix_bug_history fix_bug_messages eq_refl
           (UserMessage (JStr "fix bug")) (JStr "fix bug")
           (or_introl eq_refl) (or_introl eq_refl)).
Defined.

Lemma tool_message_is_bounded_witness :
  In (ToolMessage (JStr "2 passed") "call_1" (JStr "bash")) fix_bug_messages
  /\ exists n, py_len (JStr "2 passed") = Ok n /\ n <= 5016.
Proof.
  split; [right; right; now left |].
  exact (tool_message_is_bounded no_repr fix_bug_history fix_bug_messages eq_refl
           (JStr "2 passed") "call_1" (JStr "bash")
           (or_intror (or_intror (or_introl eq_refl)))).
Defined.

Lemma built_run_shape_witness :
  exists r,
    build_agent_run no_repr (sample_trajectory "iid") (Some passed_logs) (Some "model")
      (Some passed_run_report) = Ok (Some r)
    /\ dict_get "instance_id" (metadata r) = Some (JStr "iid")
    /\ transcripts r = [mkTranscript fix_bug_messages].
Proof.
  eexists. split; [reflexivity |].
  destruct (built_run_shape no_repr (sample_trajectory "iid") (Some passed_logs)
              (Some "model") (Some passed_run_report) _ eq_refl)
    as [_ [Hid _]].
  split; [exact Hid | reflexivity].
Defined.

Lemma metadata_keys_are_closed_witness :
  exists r,
    build_agent_run no_repr (sample_trajectory "iid") (Some passed_logs) (Some "model")
      (Some passed_run_report) = Ok (Some r)
    /\ incl (keys (metadata r)) metadata_keys
    /\ In "scores" (keys (metadata r)).
Proof.
  eexists. split; [reflexivity |].
  destruct (metadata_keys_are_closed no_repr (sample_trajectory "iid") (Some passed_logs)
              (Some "model") (Some passed_run_report) _ eq_refl)
    as [Hk [Hs _]].
  split; [exact Hk | exact Hs].
Defined.

Lemma model_name_is_attached_witness :
  exists r,
    build_agent_run no_repr (sample_trajectory "iid") None (Some "model") None
    = Ok (Some r)
    /\ dict_get "model_name" (metadata r) = Some (JStr "model").
Proof.
  eexists. split; [reflexivity |].
  exact (model_name_is_attached no_repr (sample_trajectory "iid") None
           (Some "model") None _ eq_refl).
Defined.

Lemma status_is_a_label_witness :
  exists r scores,
    build_agent_run no_repr (sample_trajectory "iid") (Some passed_logs) None
      (Some passed_run_report) = Ok (Some r)
    /\ dict_get "scores" (metadata r) = Some (JObj scores)
    /\ dict_get "status" scores = Some (JStr "passed").
Proof.
  eexists.
  destruct (status_is_a_label no_repr (sample_trajectory "iid") (Some passed_logs) None
              (Some passed_run_report) _ eq_refl)
    as [scores [Hs [_ [_ Hl]]]].
  exists scores. split; [reflexivity |]. split; [exact Hs |].
  exact (Hl passed_run_report "passed" eq_refl eq_refl).
Defined.

Lemma run_report_sets_status_only_witness :
  exists r r',
    build_agent_run no_repr (sample_trajectory "iid") (Some passed_logs) None
      (Some passed_run_report) = Ok (Some r)
    /\ build_agent_run no_repr (sample_trajectory "iid") (Some passed_logs) None None
       = Ok (Some r')
    /\ transcripts r' = transcripts r.
Proof.
  eexists.
  destruct (run_report_sets_status_only no_repr (sample_trajectory "iid")
              (Some passed_logs) None (Some passed_run_report) _ eq_refl)
    as [r' [s [s' [B [Ht _]]]]].
  exists r'. split; [reflexivity |]. split; [exact B | exact Ht].
Defined.

Lemma non_text_identifier_raises_witness :
  truthy (get numbered_trajectory "instance_id" JNull) = true
  /\ is_text (get numbered_trajectory "instance_id" JNull) = false
  /\ build_agent_run no_repr numbered_trajectory (Some passed_logs) None None
     = Raise TypeError
  /\ exists r, build_agent_run no_repr numbered_trajectory None None None = Ok (Some r).
Proof.
  split; [reflexivity |]. split; [reflexivity |].
  exact (non_text_identifier_raises no_repr numbered_trajectory passed_logs None None
           fix_bug_history _ _ [("instance_id", JInt 7)]
           eq_refl eq_refl eq_refl eq_refl eq_refl).
Defined.

Lemma upload_batches_partition_witness :
  (0 < 2)%Z
  /\ exists batches,
       upload_batches [1; 2; 3; 4; 5] 2 = Some batches
       /\ concat batches = [1; 2; 3; 4; 5]
       /\ Forall (fun batch => 1 <= List.length batch <= Z.to_nat 2) batches
       /\ Forall (fun batch => List.length batch = Z.to_nat 2) (removelast batches).
Proof.
  split; [reflexivity |].
  exact (proj1 (upload_batches_partition [1; 2; 3; 4; 5] 2%Z) eq_refl).
Defined.

Definition patched_trajectory : dict :=
  [("instance_id", JStr "iid");
   ("history", JArr fix_bug_history);
   ("metrics", JObj [("accumulated_cost", JFloat (Qmake 1 2))]);
   ("test_result", JObj [("git_patch", JStr "diff --git a/f.py b/f.py")])].

Lemma metrics_and_patch_flag_witness :
  exists r,
    build_agent_run no_repr patched_trajectory None None None = Ok (Some r)
    /\ dict_get "metrics" (metadata r)
       = Some (JObj [("accumulated_cost", JFloat (Qmake 1 2))])
    /\ dict_get "has_patch" (metadata r) = Some (JBool true).
Proof.
  eexists. split; [reflexivity |].
  destruct (metrics_and_patch_flag no_repr patched_trajectory None None None _ eq_refl)
    as [Hm [_ Hp]].
  split; [exact Hm |].
  apply (Hp [("git_patch", JStr "diff --git a/f.py b/f.py")] eq_refl). discriminate.
Defined.

(** A logs directory whose report path cannot be checked, and one that
    holds the report of the instance. *)
Definition guarded_logs : LogsDir := fun _ => Inaccessible.

Lemma load_gso_report_falls_back_witness :
  load_gso_report guarded_logs (JStr "iid") = Raise OSError
  /\ passed_logs "iid" <> Inaccessible
  /\ exists v,
       load_gso_report passed_logs (JStr "iid") = Ok v
       /\ ((exists report, passed_logs "iid" = Parsed (JObj report)
                           /\ dict_get "iid" report = Some v)
           \/ (v = JObj []
               /\ forall report, passed_logs "iid" = Parsed (JObj report) ->
                                 dict_get "iid" report = None)).
Proof.
  split; [| split].
  - exact (proj1 (load_gso_report_falls_back guarded_logs "iid") eq_refl).
  - discriminate.
  - apply (proj2 (load_gso_report_falls_back passed_logs "iid")). discriminate.
Defined.
